(** * An API gateway in front of two backend services

    Shallow embedding of [gateway/auth.py], [gateway/main.py] and
    [gateway/middleware.py], and the properties of the bearer-token layer,
    the request forwarder, the exception handlers and the logging
    middleware.

    Conventions of the embedding:
    - a Python [dict] whose order is observable (JSON objects, [SERVICES],
      whose keys are listed in error payloads) is an association list;
      [USERS_DB], which is only ever looked up by key, is a [gmap];
    - a Python call that may raise returns a [result];
    - module-level globals that are assigned at run time ([_pwd_context],
      [_users_db_initialized], [USERS_DB]) form an explicit state record;
    - the libraries the gateway calls (passlib, the HS256 signature of
      python-jose, httpx, json, pydantic's validation of a request body)
      are parameters of the sections that use them; the claim checks of
      [jose.jwt.decode] and the rendering of a [JSONResponse] are written
      out, with the exceptions they let through;
    - the list of calls a forwarded request yields is what it handed to the
      HTTP client: an empty list means no network I/O;
    - calls of [logger] are kept where logging is the subject (the
      middleware) and left out elsewhere: they do not change what a function
      returns or raises;
    - a string is well-formed text: a JSON body whose escapes spell a lone
      surrogate, which Python can hold and cannot encode, is outside the
      embedding. *)

From Stdlib Require Import ZArith String Ascii List Bool Lia DecimalString.
From stdpp Require Import base option strings gmap.
Import ListNotations.
Open Scope Z_scope.
Open Scope string_scope.

(* ===================================================================== *)
(** ** JSON values and Python dictionaries *)
(* ===================================================================== *)

Module Json.

(** A Python [float]: a finite binary fraction [mantissa * 2 ^ exponent],
    or one of the three values [json.loads] reads from [NaN], [Infinity] and
    [-Infinity]. *)
Inductive pyfloat : Type :=
| Finite (mantissa exponent : Z)
| Infinity (negative : bool)
| NaN.

#[warnings="-register-all"]
Inductive json : Type :=
| JNull
| JBool (b : bool)
| JInt (n : Z)
| JStr (s : string)
| JList (xs : list json)
| JDict (kv : list (string * json))
| JFloat (x : pyfloat).

(** [d.get(k)] on an insertion-ordered dictionary. *)
Fixpoint assoc_get {V : Type} (k : string) (d : list (string * V)) : option V :=
  match d with
  | [] => None
  | (k', v) :: rest => if String.eqb k k' then Some v else assoc_get k rest
  end.

(** [d.get(k, dflt)]. *)
Definition assoc_get_default {V : Type} (k : string) (dflt : V)
    (d : list (string * V)) : V :=
  match assoc_get k d with Some v => v | None => dflt end.

(** [d.update({k: v})]: an existing key keeps its position, a new key is
    appended. *)
Fixpoint assoc_set {V : Type} (k : string) (v : V) (d : list (string * V))
    : list (string * V) :=
  match d with
  | [] => [(k, v)]
  | (k', v') :: rest =>
      if String.eqb k k' then (k, v) :: rest else (k', v') :: assoc_set k v rest
  end.

(** [list(d.keys())]. *)
Definition keys {V : Type} (d : list (string * V)) : list string :=
  map fst d.

(** [isinstance(x, dict)]. *)
Definition is_dict (j : json) : bool :=
  match j with JDict _ => true | _ => false end.

Definition is_str (j : json) : bool :=
  match j with JStr _ => true | _ => false end.

Definition is_int (j : json) : bool :=
  match j with JInt _ => true | _ => false end.

(** [str(n)] of an integer, as an f-string prints it. *)
Definition str_of_Z (n : Z) : string := NilZero.string_of_int (Z.to_int n).

(** [needle in hay] on strings. *)
Definition includes (hay needle : string) : bool :=
  match String.index 0 needle hay with Some _ => true | None => false end.

(** Whether some string inside the value (a key or a string leaf) includes
    [needle]: what a reader of the serialised value could find in it. *)
Fixpoint mentions (needle : string) (j : json) : bool :=
  match j with
  | JStr s => includes s needle
  | JList xs => existsb (mentions needle) xs
  | JDict kv =>
      (fix go (l : list (string * json)) : bool :=
         match l with
         | [] => false
         | (k, v) :: rest => includes k needle || mentions needle v || go rest
         end) kv
  | _ => false
  end.

(** Whether [json.dumps(value, allow_nan=False)] succeeds: it raises
    [ValueError] on NaN and on the infinities, wherever they sit in the
    value. *)
Fixpoint renderable (j : json) : bool :=
  match j with
  | JFloat (Finite _ _) => true
  | JFloat _ => false
  | JList xs => forallb renderable xs
  | JDict kv =>
      (fix go (l : list (string * json)) : bool :=
         match l with
         | [] => true
         | (_, v) :: rest => renderable v && go rest
         end) kv
  | _ => true
  end.

(** [int(x)] of a finite float: the integer part, towards zero. *)
Definition float_trunc (mantissa exponent : Z) : Z :=
  if (0 <=? exponent)%Z then mantissa * 2 ^ exponent
  else Z.quot mantissa (2 ^ (- exponent)).

Definition is_space (c : ascii) : bool :=
  let n := nat_of_ascii c in
  Nat.eqb n 32 || (Nat.leb 9 n && Nat.leb n 13).

Definition digit_value (c : ascii) : option Z :=
  let n := nat_of_ascii c in
  if Nat.leb 48 n && Nat.leb n 57 then Some (Z.of_nat n - 48) else None.

Fixpoint lstrip (l : list ascii) : list ascii :=
  match l with
  | c :: rest => if is_space c then lstrip rest else l
  | [] => []
  end.

(** Digits with single underscores between them; [after_digit] tells
    whether the character before was a digit. *)
Fixpoint read_digits (acc : Z) (after_digit : bool) (l : list ascii) : option Z :=
  match l with
  | [] => if after_digit then Some acc else None
  | c :: rest =>
      match digit_value c with
      | Some d => read_digits (acc * 10 + d) true rest
      | None =>
          if Nat.eqb (nat_of_ascii c) 95 && after_digit
          then read_digits acc false rest
          else None
      end
  end.

(** [int(s)] of a string, [None] for [ValueError]: surrounding white space,
    an optional sign, decimal digits with single underscores between them.
    (Python reads non-ASCII decimal digits and spaces as well.) *)
Definition int_of_str (s : string) : option Z :=
  let l := rev (lstrip (rev (lstrip (list_ascii_of_string s)))) in
  match l with
  | c :: rest =>
      if Nat.eqb (nat_of_ascii c) 43 then read_digits 0 false rest
      else if Nat.eqb (nat_of_ascii c) 45
      then option_map Z.opp (read_digits 0 false rest)
      else read_digits 0 false l
  | [] => None
  end.

End Json.
Import Json.

(* ===================================================================== *)
(** ** Exceptions and results *)
(* ===================================================================== *)

(** The exception classes the gateway distinguishes.  The three httpx
    constructors are disjoint by construction: [HttpxTimeout] stands for
    [httpx.TimeoutException] and its subclasses, [HttpxConnectError] for
    [httpx.ConnectError], [HttpxRequestError] for every other
    [httpx.RequestError].  [JWTError] stands for [jose.JWTError] and its
    subclasses ([ExpiredSignatureError], [JWTClaimsError]);
    [RequestValidationError] is FastAPI's, with the errors it reports. *)
Inductive jwt_failure : Type := BadToken | BadSignature | Expired | BadClaims.

Inductive exn : Type :=
| HTTPException (status_code : Z) (detail : json)
| JWTError (why : jwt_failure)
| HttpxTimeout (msg : string)
| HttpxConnectError (msg : string)
| HttpxRequestError (msg : string)
| AttributeError (msg : string)
| TypeError (msg : string)
| OtherException (msg : string)
| ValueError (msg : string)
| OverflowError (msg : string)
| RequestValidationError (errors : list json).

Inductive result (A : Type) : Type :=
| Ok (a : A)
| Raise (e : exn).
Arguments Ok {A} a.
Arguments Raise {A} e.

Definition rbind {A B : Type} (r : result A) (k : A -> result B) : result B :=
  match r with Ok a => k a | Raise e => Raise e end.

(** [try: body  except ...: handler], with [handler] deciding per exception
    (an exception no clause matches is returned by the handler as it is). *)
Definition try_except {A : Type} (body : result A) (handler : exn -> result A)
    : result A :=
  match body with Ok a => Ok a | Raise e => handler e end.

Notation "'let!' x ':=' c1 'in' c2" := (rbind c1 (fun x => c2))
  (at level 10, x name, c1 at level 100, c2 at level 200).

(** [int(x)] of a JSON value as Python holds it: [TypeError] on [None], a
    list or a dict, [ValueError] on NaN and on a string that is no integer
    literal, [OverflowError] on an infinity. *)
Definition py_int (v : json) : result Z :=
  match v with
  | JInt n => Ok n
  | JBool b => Ok (if b then 1 else 0)
  | JFloat (Finite m e) => Ok (float_trunc m e)
  | JFloat NaN => Raise (ValueError "cannot convert float NaN to integer")
  | JFloat (Infinity _) =>
      Raise (OverflowError "cannot convert float infinity to integer")
  | JStr s =>
      match int_of_str s with
      | Some n => Ok n
      | None => Raise (ValueError "invalid literal for int() with base 10")
      end
  | JNull | JList _ | JDict _ =>
      Raise (TypeError "int() argument must be a string or a real number")
  end.

(* ===================================================================== *)
(** ** gateway/auth.py *)
(* ===================================================================== *)

Module Auth.

(** passlib's [CryptContext]: [hash] and [verify] may raise ([None]), as
    they do when the bcrypt backend cannot be loaded or, for [verify], when
    the stored string is not a hash of a known scheme.  Building the context
    itself ([CryptContext(schemes=["bcrypt"], deprecated="auto")]) only
    records the configuration and does not raise. *)
Record CryptContext : Type := {
  ctx_hash : string -> option string;
  ctx_verify : string -> string -> option bool
}.

(** An entry of [USERS_DB]. *)
Record user : Type := {
  username : string;
  hashed_password : string;
  role : string
}.

(** The dictionary [{"username": ..., "role": ...}] the module hands out. *)
Record principal : Type := {
  p_username : string;
  p_role : string
}.

(** The module-level globals that are assigned at run time. *)
Record auth_state : Type := {
  _pwd_context : option CryptContext;
  _users_db_initialized : bool;
  USERS_DB : gmap string user
}.

(** The globals as the module body leaves them at import time. *)
Definition initial_state : auth_state :=
  {| _pwd_context := None; _users_db_initialized := false; USERS_DB := ∅ |}.

Definition ALGORITHM : string := "HS256".
Definition ACCESS_TOKEN_EXPIRE_MINUTES : Z := 30.

(** A bearer token as python-jose sees it: either a compact JWS whose three
    segments decode (header algorithm, claims object, signature), or a
    string that does not parse as one (a wrong number of segments, a segment
    that is not base64, a header or payload that is not a JSON object). *)
Inductive token : Type :=
| Compact (alg : string) (claims : list (string * json)) (signature : string)
| Unparseable (raw : string).

Section WithLibraries.

(** The context [CryptContext(schemes=["bcrypt"], deprecated="auto")]. *)
Variable bcrypt : CryptContext.
(** [os.getenv("SECRET_KEY", ...)]. *)
Variable SECRET_KEY : string.
(** The HS256 signature of a claims set under a key. *)
Variable hs256 : string -> list (string * json) -> string.

Definition get_pwd_context (st : auth_state) : CryptContext * auth_state :=
  match _pwd_context st with
  | Some ctx => (ctx, st)
  | None =>
      (bcrypt,
       {| _pwd_context := Some bcrypt;
          _users_db_initialized := _users_db_initialized st;
          USERS_DB := USERS_DB st |})
  end.

Definition hashed_users (h_admin h_user : string) : gmap string user :=
  <["admin" := {| username := "admin"; hashed_password := h_admin; role := "admin" |}]>
  (<["user" := {| username := "user"; hashed_password := h_user; role := "user" |}]> ∅).

(** The [try] body of [_init_users_db]: both hashes are computed before
    [USERS_DB] is assigned, so a failure of either leaves it untouched and
    the [except] branch installs the plain-text table (after a
    [warnings.warn], which has no effect on the values modelled here). *)
Definition _init_users_db (st : auth_state) : auth_state :=
  if _users_db_initialized st then st
  else
    let '(ctx, st1) := get_pwd_context st in
    match ctx_hash ctx "admin123", ctx_hash ctx "user123" with
    | Some h_admin, Some h_user =>
        {| _pwd_context := _pwd_context st1;
           _users_db_initialized := true;
           USERS_DB := hashed_users h_admin h_user |}
    | _, _ =>
        {| _pwd_context := _pwd_context st1;
           _users_db_initialized := true;
           USERS_DB := hashed_users "admin123" "user123" |}
    end.

Definition verify_password (st : auth_state) (plain_password hashed : string)
    : result bool * auth_state :=
  let '(ctx, st1) := get_pwd_context st in
  match ctx_verify ctx plain_password hashed with
  | Some b => (Ok b, st1)
  | None => (Raise (OtherException "passlib"), st1)
  end.

Definition get_password_hash (st : auth_state) (password : string)
    : result string * auth_state :=
  let '(ctx, st1) := get_pwd_context st in
  match ctx_hash ctx password with
  | Some h => (Ok h, st1)
  | None => (Raise (OtherException "passlib"), st1)
  end.

Definition principal_of (u : user) : principal :=
  {| p_username := username u; p_role := role u |}.

Definition authenticate_user (st : auth_state) (name password : string)
    : result (option principal) * auth_state :=
  let st1 := if _users_db_initialized st then st else _init_users_db st in
  match USERS_DB st1 !! name with
  | None => (Ok None, st1)
  | Some u =>
      if String.eqb (hashed_password u) password then
        (Ok (Some (principal_of u)), st1)
      else
        match verify_password st1 password (hashed_password u) with
        | (Ok false, st2) => (Ok None, st2)
        | (Ok true, st2) => (Ok (Some (principal_of u)), st2)
        | (Raise e, st2) => (Raise e, st2)
        end
  end.

(** [jose.jwt.encode(claims, key, algorithm)]. *)
Definition jwt_encode (claims : list (string * json)) (key alg : string) : token :=
  Compact alg claims (hs256 key claims).

(** The claim checks of [jose.jwt.decode] that run with the arguments the
    gateway passes (no audience, issuer, subject or access token), in the
    library's order.  A time claim is read with [int(...)], of which the
    library catches [ValueError] only: the [TypeError] of a [null], list or
    object and the [OverflowError] of an infinity leave [decode] as they
    are. *)
Definition int_claim (name : string) (claims : list (string * json))
    (check : Z -> result unit) : result unit :=
  match assoc_get name claims with
  | None => Ok tt
  | Some v =>
      match py_int v with
      | Ok n => check n
      | Raise (ValueError _) => Raise (JWTError BadClaims)
      | Raise e => Raise e
      end
  end.

Definition _validate_iat (claims : list (string * json)) : result unit :=
  int_claim "iat" claims (fun _ => Ok tt).

Definition _validate_nbf (claims : list (string * json)) (now : Z) : result unit :=
  int_claim "nbf" claims
    (fun nbf => if (now <? nbf)%Z then Raise (JWTError BadClaims) else Ok tt).

Definition _validate_exp (claims : list (string * json)) (now : Z) : result unit :=
  int_claim "exp" claims
    (fun exp => if (exp <? now)%Z then Raise (JWTError Expired) else Ok tt).

(** With [audience=None] every [aud] claim fails: a wrong format, or
    [None] not being among the audiences. *)
Definition _validate_aud (claims : list (string * json)) : result unit :=
  match assoc_get "aud" claims with
  | None => Ok tt
  | Some _ => Raise (JWTError BadClaims)
  end.

Definition _validate_sub (claims : list (string * json)) : result unit :=
  match assoc_get "sub" claims with
  | None | Some (JStr _) => Ok tt
  | Some _ => Raise (JWTError BadClaims)
  end.

Definition _validate_jti (claims : list (string * json)) : result unit :=
  match assoc_get "jti" claims with
  | None | Some (JStr _) => Ok tt
  | Some _ => Raise (JWTError BadClaims)
  end.

(** With [access_token=None] every [at_hash] claim fails. *)
Definition _validate_at_hash (claims : list (string * json)) : result unit :=
  match assoc_get "at_hash" claims with
  | None => Ok tt
  | Some _ => Raise (JWTError BadClaims)
  end.

Definition _validate_claims (claims : list (string * json)) (now : Z)
    : result unit :=
  let! ok_iat := _validate_iat claims in
  let! ok_nbf := _validate_nbf claims now in
  let! ok_exp := _validate_exp claims now in
  let! ok_aud := _validate_aud claims in
  let! ok_sub := _validate_sub claims in
  let! ok_jti := _validate_jti claims in
  _validate_at_hash claims.

(** [jose.jwt.decode(token, key, algorithms)] at time [now] (seconds).  A
    token whose segments, header or payload do not parse, whose algorithm is
    not allowed or whose signature does not match fails with a [JWTError];
    then the claims are checked. *)
Definition jwt_decode (t : token) (key : string) (algorithms : list string)
    (now : Z) : result (list (string * json)) :=
  match t with
  | Unparseable _ => Raise (JWTError BadToken)
  | Compact alg claims sig =>
      if negb (existsb (String.eqb alg) algorithms) then Raise (JWTError BadSignature)
      else if negb (String.eqb sig (hs256 key claims)) then Raise (JWTError BadSignature)
      else
        let! checked := _validate_claims claims now in
        Ok claims
  end.

(** [expires_delta] in seconds; [timedelta(0)] is falsy, so it selects the
    default lifetime like [None] does. *)
Definition expire_at (expires_delta : option Z) (utcnow : Z) : Z :=
  match expires_delta with
  | Some d => if (d =? 0)%Z then utcnow + ACCESS_TOKEN_EXPIRE_MINUTES * 60
              else utcnow + d
  | None => utcnow + ACCESS_TOKEN_EXPIRE_MINUTES * 60
  end.

Definition create_access_token (data : list (string * json))
    (expires_delta : option Z) (utcnow : Z) : token :=
  let to_encode := data in
  let expire := expire_at expires_delta utcnow in
  let to_encode := assoc_set "exp" (JInt expire) to_encode in
  jwt_encode to_encode SECRET_KEY ALGORITHM.

Definition credentials_exception : exn :=
  HTTPException 401 (JStr "Could not validate credentials").

(** [get_current_user]; [USERS_DB] is read as it is, the function does not
    trigger [_init_users_db]. *)
Definition get_current_user (st : auth_state) (credentials : token) (now : Z)
    : result principal :=
  let! sub :=
    try_except
      (let! payload := jwt_decode credentials SECRET_KEY [ALGORITHM] now in
       match assoc_get "sub" payload with
       | None | Some JNull => Raise credentials_exception
       | Some sub => Ok sub
       end)
      (fun e => match e with
                | JWTError _ => Raise credentials_exception
                | _ => Raise e
                end) in
  match sub with
  | JStr name =>
      match USERS_DB st !! name with
      | None => Raise credentials_exception
      | Some u => Ok (principal_of u)
      end
  | JList _ | JDict _ => Raise (TypeError "unhashable type")
  | _ => Raise credentials_exception
  end.

Definition get_current_active_user (st : auth_state) (credentials : token)
    (now : Z) : result principal :=
  get_current_user st credentials now.

End WithLibraries.

End Auth.

(* ===================================================================== *)
(** ** gateway/main.py *)
(* ===================================================================== *)

Module Gateway.

Definition SERVICES : list (string * string) :=
  [("student", "http://localhost:8001"); ("course", "http://localhost:8002")].

(** What the gateway reads of an [httpx.Response]. *)
Record Response : Type := {
  status_code : Z;
  text : string
}.

(** A [fastapi.responses.JSONResponse]. *)
Record JSONResponse : Type := {
  resp_status : Z;
  content : json
}.

(** One request handed to the HTTP client, by [client.get(url, **kwargs)]
    or one of its three siblings; the list of these is what a call of
    [forward_request] asked the client to send.  Sending is the client's
    business: it may refuse an address and raise before anything leaves the
    process, so a request in the list need not have reached a backend, while
    an empty list means no network I/O. *)
Record call : Type := {
  call_method : string;
  call_url : string;
  call_json : option json
}.

(** [JSONResponse(content=..., status_code=...)]: the constructor renders
    the content at once, with [allow_nan=False], and raises [ValueError] on
    a NaN or an infinity. *)
Definition new_JSONResponse (body : json) (status : Z) : result JSONResponse :=
  if renderable body then Ok {| resp_status := status; content := body |}
  else Raise (ValueError "Out of range float values are not JSON compliant").

Section WithTransport.

(** [json.loads], which [response.json()] applies to [response.text];
    [None] when it raises. *)
Variable json_loads : string -> option json.
(** The client [httpx.AsyncClient(timeout=30.0)] with the backend behind
    it: what awaiting the one request returns or raises, be it the backend's
    answer, a failure on the way, or the client's refusal to send. *)
Variable transport : call -> result Response.

Definition client_get (url : string) (kwargs : option json) : call :=
  {| call_method := "GET"; call_url := url; call_json := kwargs |}.
Definition client_post (url : string) (kwargs : option json) : call :=
  {| call_method := "POST"; call_url := url; call_json := kwargs |}.
Definition client_put (url : string) (kwargs : option json) : call :=
  {| call_method := "PUT"; call_url := url; call_json := kwargs |}.
Definition client_delete (url : string) (kwargs : option json) : call :=
  {| call_method := "DELETE"; call_url := url; call_json := kwargs |}.

(** The [if response.status_code >= 400: ... return JSONResponse(...)] part
    of the [try] body.  [error_detail.get] exists only on a dictionary: on
    any other parsed value the attribute lookup raises inside the [try], and
    so does the constructor of the [JSONResponse] on content it cannot
    render. *)
Definition translate_response (service path : string) (response : Response)
    : result JSONResponse :=
  if (400 <=? status_code response)%Z then
    let error_detail :=
      match json_loads (text response) with
      | Some j => j
      | None =>
          JDict [("detail",
                  JStr (if String.eqb (text response) "" then "Unknown error"
                        else text response))]
      end in
    let! message :=
      match error_detail with
      | JDict kv =>
          Ok (assoc_get_default "detail"
                (JStr "An error occurred in the microservice") kv)
      | _ => Raise (AttributeError "object has no attribute 'get'")
      end in
    Raise (HTTPException (status_code response)
             (JDict [("error",
                      JStr ("Service Error (" +:+ str_of_Z (status_code response) +:+ ")"));
                     ("message", message);
                     ("service", JStr service);
                     ("path", JStr path)]))
  else
    let response_data :=
      if String.eqb (text response) "" then JNull
      else match json_loads (text response) with
           | Some j => j
           | None => JDict [("raw", JStr (text response))]
           end in
    new_JSONResponse response_data (status_code response).

(** The body of the [try]: the method chain, then the translation of the
    response.  The second component is the requests handed to the client. *)
Definition try_body (service path method url : string) (kwargs : option json)
    : result JSONResponse * list call :=
  let sent :=
    if String.eqb method "GET" then Some (client_get url kwargs)
    else if String.eqb method "POST" then Some (client_post url kwargs)
    else if String.eqb method "PUT" then Some (client_put url kwargs)
    else if String.eqb method "DELETE" then Some (client_delete url kwargs)
    else None in
  match sent with
  | Some c =>
      (let! response := transport c in translate_response service path response,
       [c])
  | None =>
      (Raise (HTTPException 405
                (JDict [("error", JStr "Method Not Allowed");
                        ("message",
                         JStr ("HTTP method '" +:+ method +:+ "' is not supported"));
                        ("allowed_methods",
                         JList [JStr "GET"; JStr "POST"; JStr "PUT"; JStr "DELETE"])])),
       [])
  end.

(** The [except] clauses, in the order of the source. *)
Definition except_clauses (service url : string) (e : exn) : result JSONResponse :=
  match e with
  | HttpxTimeout _ =>
      Raise (HTTPException 504
               (JDict [("error", JStr "Gateway Timeout");
                       ("message",
                        JStr ("The " +:+ service +:+ " service did not respond in time"));
                       ("service", JStr service);
                       ("timeout", JStr "30 seconds")]))
  | HttpxConnectError _ =>
      Raise (HTTPException 503
               (JDict [("error", JStr "Service Unavailable");
                       ("message",
                        JStr ("Unable to connect to " +:+ service +:+
                              " service. Please check if the service is running."));
                       ("service", JStr service);
                       ("url", JStr url)]))
  | HttpxRequestError msg =>
      Raise (HTTPException 502
               (JDict [("error", JStr "Bad Gateway");
                       ("message",
                        JStr ("Error communicating with " +:+ service +:+ " service"));
                       ("service", JStr service);
                       ("error_details", JStr msg)]))
  | HTTPException _ _ => Raise e
  | _ =>
      Raise (HTTPException 500
               (JDict [("error", JStr "Internal Server Error");
                       ("message",
                        JStr "An unexpected error occurred while processing your request");
                       ("service", JStr service)]))
  end.

Definition forward_request (service path method : string) (kwargs : option json)
    : result JSONResponse * list call :=
  match assoc_get service SERVICES with
  | None =>
      (Raise (HTTPException 404
                (JDict [("error", JStr "Service Not Found");
                        ("message",
                         JStr ("The requested service '" +:+ service +:+
                               "' is not available"));
                        ("available_services", JList (map JStr (keys SERVICES)))])),
       [])
  | Some base =>
      let url := base +:+ path in
      let '(r, io) := try_body service path method url kwargs in
      (try_except r (except_clauses service url), io)
  end.

End WithTransport.

(** [@app.exception_handler(HTTPException)]; [request_path] is
    [str(request.url.path)]. *)
Definition http_exception_handler (request_path : string) (status : Z)
    (detail : json) : result JSONResponse :=
  new_JSONResponse
    (JDict [("error",
             match detail with
             | JDict kv => assoc_get_default "error" (JStr "Error") kv
             | _ => JStr "Error"
             end);
            ("message",
             match detail with
             | JDict kv => assoc_get_default "message" detail kv
             | _ => detail
             end);
            ("status_code", JInt status);
            ("path", JStr request_path)])
    status.

(** [@app.exception_handler(Exception)]. *)
Definition general_exception_handler (request_path : string) : JSONResponse :=
  {| resp_status := 500;
     content :=
       JDict [("error", JStr "Internal Server Error");
              ("message", JStr "An unexpected error occurred");
              ("status_code", JInt 500);
              ("path", JStr request_path)] |}.

(** FastAPI's own handler of [RequestValidationError], which the gateway
    does not replace. *)
Definition request_validation_exception_handler (errors : list json)
    : result JSONResponse :=
  new_JSONResponse (JDict [("detail", JList errors)]) 422.

(** The response the application sends for an exception an endpoint or a
    dependency raised: the handler registered for the exception's class
    builds it, and when that handler raises in turn, the handler of
    [Exception] does. *)
Definition failure_response (request_path : string) (e : exn) : JSONResponse :=
  let built :=
    match e with
    | HTTPException status detail =>
        http_exception_handler request_path status detail
    | RequestValidationError errors =>
        request_validation_exception_handler errors
    | _ => Ok (general_exception_handler request_path)
    end in
  match built with
  | Ok response => response
  | Raise _ => general_exception_handler request_path
  end.

(** The response for what an endpoint returned or raised. *)
Definition respond (request_path : string) (r : result JSONResponse)
    : JSONResponse :=
  match r with
  | Ok resp => resp
  | Raise e => failure_response request_path e
  end.

(** Whether a body is [{error: string, message: string, status_code: int,
    path: string}]. *)
Definition error_body_shape (body : json) : bool :=
  match body with
  | JDict [(k1, JStr _); (k2, JStr _); (k3, JInt _); (k4, JStr _)] =>
      String.eqb k1 "error" && String.eqb k2 "message"
      && String.eqb k3 "status_code" && String.eqb k4 "path"
  | _ => false
  end.

(** The [login] endpoint. *)
Definition login (bcrypt : Auth.CryptContext) (SECRET_KEY : string)
    (hs256 : string -> list (string * json) -> string)
    (st : Auth.auth_state) (name password : string) (utcnow : Z)
    : result (Auth.token * Auth.principal) * Auth.auth_state :=
  match Auth.authenticate_user bcrypt st name password with
  | (Raise e, st1) => (Raise e, st1)
  | (Ok None, st1) =>
      (Raise (HTTPException 401
                (JDict [("error", JStr "Authentication Failed");
                        ("message", JStr "Invalid username or password")])),
       st1)
  | (Ok (Some u), st1) =>
      let access_token_expires := Auth.ACCESS_TOKEN_EXPIRE_MINUTES * 60 in
      let access_token :=
        Auth.create_access_token SECRET_KEY hs256
          [("sub", JStr (Auth.p_username u)); ("role", JStr (Auth.p_role u))]
          (Some access_token_expires) utcnow in
      (Ok (access_token, u), st1)
  end.

End Gateway.

(* ===================================================================== *)
(** ** gateway/middleware.py *)
(* ===================================================================== *)

Module Middleware.

Record Request : Type := {
  req_method : string;
  req_path : string;
  req_client : option string;
  req_query_params : list (string * string)
}.

(** The three records [dispatch] writes to the ["gateway"] logger. *)
Inductive log_record : Type :=
| LogRequest (method path client : string) (query : list (string * string))
| LogException (method path : string) (error : exn) (process_time : Z)
| LogResponse (method path : string) (status : Z) (process_time : Z).

Section Dispatch.

(** The response type of the wrapped application and its [status_code]. *)
Variable Resp : Type.
Variable status_code_of : Resp -> Z.

(** [LoggingMiddleware.dispatch].  [call_next] is the rest of the pipeline,
    which may append to the log itself; [start_time] and [end_time] are the
    two readings of [time.time()]. *)
Definition dispatch (request : Request)
    (call_next : Request -> list log_record -> result Resp * list log_record)
    (start_time end_time : Z) (log : list log_record)
    : result Resp * list log_record :=
  let log1 :=
    (log ++ [LogRequest (req_method request) (req_path request)
               (match req_client request with Some host => host | None => "unknown" end)
               (req_query_params request)])%list in
  match call_next request log1 with
  | (Raise e, log2) =>
      let process_time := end_time - start_time in
      (Raise e,
       (log2 ++ [LogException (req_method request) (req_path request) e
                   process_time])%list)
  | (Ok response, log2) =>
      let process_time := end_time - start_time in
      (Ok response,
       (log2 ++ [LogResponse (req_method request) (req_path request)
                   (status_code_of response) process_time])%list)
  end.

End Dispatch.

End Middleware.

(* ===================================================================== *)
(** ** Specification vocabulary and sample instances of the libraries *)
(* ===================================================================== *)

Module Spec.

(** The subject a token claims, when it parses and carries a string [sub]. *)
Definition token_subject (t : Auth.token) : option string :=
  match t with
  | Auth.Compact _ claims _ =>
      match assoc_get "sub" claims with
      | Some (JStr name) => Some name
      | _ => None
      end
  | Auth.Unparseable _ => None
  end.

(** Three ways a token is invalid at time [now] under a key: it does not
    parse, its signature is not the key's signature of its claims, or it is
    correctly signed and the library, having read [iat] and [nbf], finds its
    [exp] in the past. *)
Inductive invalid_token (key : string)
    (hs256 : string -> list (string * json) -> string) (now : Z)
    : Auth.token -> Prop :=
| invalid_malformed (raw : string) :
    invalid_token key hs256 now (Auth.Unparseable raw)
| invalid_signature (alg : string) (claims : list (string * json)) (sig : string) :
    sig <> hs256 key claims ->
    invalid_token key hs256 now (Auth.Compact alg claims sig)
| invalid_expired (alg : string) (claims : list (string * json)) (v : json)
    (e : Z) :
    Auth._validate_iat claims = Ok tt ->
    Auth._validate_nbf claims now = Ok tt ->
    assoc_get "exp" claims = Some v ->
    py_int v = Ok e ->
    e < now ->
    invalid_token key hs256 now (Auth.Compact alg claims (hs256 key claims)).

(** The exceptions that leave [jose.jwt.decode]: its own, and the two that
    [int(...)] raises and the library does not catch. *)
Definition decode_exception (e : exn) : Prop :=
  match e with
  | JWTError _ | TypeError _ | OverflowError _ => True
  | _ => False
  end.

(** The library settles a token when it returns the claims or raises one of
    its own [JWTError]s, rather than letting another exception through. *)
Definition settled (r : result (list (string * json))) : Prop :=
  match r with
  | Ok _ | Raise (JWTError _) => True
  | Raise _ => False
  end.

(** The body of a response is exactly the four fields, in the handlers'
    order, with the given error and message, the status of the response
    under [status_code] and the request path under [path]. *)
Definition four_fields (request_path : string) (r : Gateway.JSONResponse)
    (err msg : json) : Prop :=
  Gateway.content r
  = JDict [("error", err); ("message", msg);
           ("status_code", JInt (Gateway.resp_status r));
           ("path", JStr request_path)].

(** A value is the [detail] of a JSON object with which a backend answered
    with a status of 400 or above, and is not a string. *)
Definition backend_detail (json_loads : string -> option json)
    (transport : Gateway.call -> result Gateway.Response) (v : json) : Prop :=
  exists (c : Gateway.call) (response : Gateway.Response)
         (kv : list (string * json)),
    transport c = Ok response
    /\ 400 <= Gateway.status_code response
    /\ json_loads (Gateway.text response) = Some (JDict kv)
    /\ assoc_get "detail" kv = Some v
    /\ is_str v = false.

(** Every entry of the registry is stored under its own user name. *)
Definition registry_keyed (st : Auth.auth_state) : Prop :=
  forall (name : string) (u : Auth.user),
    Auth.USERS_DB st !! name = Some u -> Auth.username u = name.

(** The methods the forwarder has a branch for. *)
Definition supported_method (method : string) : bool :=
  String.eqb method "GET" || String.eqb method "POST"
  || String.eqb method "PUT" || String.eqb method "DELETE".

(** An exception whose client-visible [error] and [message] are text: an
    exception that the handler of [Exception] answers, and an
    [HTTPException] whose detail is a string or a dictionary with a string
    [message] and, when present, a string [error]. *)
Definition textual_detail (e : exn) : bool :=
  match e with
  | HTTPException _ (JStr _) => true
  | HTTPException _ (JDict kv) =>
      match assoc_get "error" kv with
      | None | Some (JStr _) => true
      | Some _ => false
      end
      && match assoc_get "message" kv with
         | Some (JStr _) => true
         | _ => false
         end
  | HTTPException _ _ => false
  | RequestValidationError _ => false
  | _ => true
  end.

End Spec.

Module Samples.

(** A working password context: a hash is the scheme marker followed by the
    password, and [verify] refuses a string without the marker, as passlib
    refuses a string it cannot identify as a hash. *)
Definition working_ctx : Auth.CryptContext :=
  {| Auth.ctx_hash := fun p => Some ("$2b$" +:+ p);
     Auth.ctx_verify := fun p h =>
       if String.prefix "$2b$" h then Some (String.eqb h ("$2b$" +:+ p))
       else None |}.

(** A context whose backend cannot be loaded. *)
Definition broken_ctx : Auth.CryptContext :=
  {| Auth.ctx_hash := fun _ => None; Auth.ctx_verify := fun _ _ => None |}.

Definition secret : string := "your-secret-key-change-this-in-production".

(** A stand-in for HMAC: the key followed by the names of the claims. *)
Definition sample_hs256 (key : string) (claims : list (string * json)) : string :=
  key +:+ "/" +:+ String.concat "," (keys claims).

(** The double quote character, as a string. *)
Definition dq : string := String (Ascii.ascii_of_nat 34) EmptyString.

(** [{"detail": [1]}], a body of the kind a backend sends with 422. *)
Definition validation_error_text : string :=
  "{" +:+ dq +:+ "detail" +:+ dq +:+ ": [1]}".

(** [json.loads] on the handful of bodies used below. *)
Definition sample_json_loads (s : string) : option json :=
  if String.eqb s "[1, 2]" then Some (JList [JInt 1; JInt 2])
  else if String.eqb s validation_error_text then
    Some (JDict [("detail", JList [JInt 1])])
  else if String.eqb s "{}" then Some (JDict [])
  else None.

(** The registry after a first call of [authenticate_user]. *)
Definition ready_state : Auth.auth_state :=
  Auth._init_users_db working_ctx Auth.initial_state.

(** A token issued at time 1000 for the administrator, valid for 1800 s. *)
Definition admin_token : Auth.token :=
  Auth.create_access_token secret sample_hs256
    [("sub", JStr "admin"); ("role", JStr "admin")] (Some 1800) 1000.

(** The same for a subject the registry does not know. *)
Definition stranger_token : Auth.token :=
  Auth.create_access_token secret sample_hs256
    [("sub", JStr "mallory"); ("role", JStr "admin")] (Some 1800) 1000.

(** Claims under a signature that is not the key's. *)
Definition forged_token : Auth.token :=
  Auth.Compact "HS256" [("sub", JStr "admin"); ("exp", JInt 2800)] "forged".

Definition garbage_token : Auth.token := Auth.Unparseable "not-a-token".

(** A correctly signed token whose expiry is [null]. *)
Definition null_expiry_token : Auth.token :=
  Auth.Compact "HS256" [("sub", JStr "admin"); ("exp", JNull)]
    (sample_hs256 secret [("sub", JStr "admin"); ("exp", JNull)]).

(** Backends: one that refuses the connection, one that times out, one
    that answers 404 with a JSON array, one that answers 422 with FastAPI's
    validation body. *)
Definition refusing_backend (c : Gateway.call) : result Gateway.Response :=
  Raise (HttpxConnectError "All connection attempts failed").

Definition slow_backend (c : Gateway.call) : result Gateway.Response :=
  Raise (HttpxTimeout "timed out").

Definition array_404_backend (c : Gateway.call) : result Gateway.Response :=
  Ok {| Gateway.status_code := 404; Gateway.text := "[1, 2]" |}.

Definition validation_backend (c : Gateway.call) : result Gateway.Response :=
  Ok {| Gateway.status_code := 422; Gateway.text := validation_error_text |}.

End Samples.
(* ===================================================================== *)
(** ** course-service: models.py, data_service.py, service.py, main.py *)
(* ===================================================================== *)

Module CourseService.

Module models.

(** [models.Course].  The fields other than [id] are declared as plain
    [str] and [int], but [update_course] assigns with [setattr], which
    pydantic does not validate, so a stored course can hold [None] in any
    of them. *)
Record Course : Type := {
  id : Z;
  name : option string;
  code : option string;
  credits : option Z;
  instructor : option string;
  description : option string
}.

#[global] Instance Course_eq_dec : EqDecision Course.
Proof. solve_decision. Defined.

(** [models.CourseCreate]: every field but [description] is required. *)
Record CourseCreate : Type := {
  new_name : string;
  new_code : string;
  new_credits : Z;
  new_instructor : string;
  new_description : option string
}.

(** A field of [models.CourseUpdate] as [model_dump(exclude_unset=True)]
    sees it: left out of the request, or provided (possibly as [null]). *)
Inductive field (A : Type) : Type :=
| Unset
| Provided (v : option A).
Arguments Unset {A}.
Arguments Provided {A} v.

Record CourseUpdate : Type := {
  upd_name : field string;
  upd_code : field string;
  upd_credits : field Z;
  upd_instructor : field string;
  upd_description : field string
}.

End models.

Module data_service.
Import models.

(** The attributes of a [CourseMockDataService]. *)
Record CourseMockDataService : Type := {
  courses : list Course;
  next_id : Z
}.

(** [CourseMockDataService.__init__]. *)
Definition __init__ : CourseMockDataService :=
  {| courses :=
       [ {| id := 1; name := Some "Introduction to Computer Science";
            code := Some "CS101"; credits := Some 3;
            instructor := Some "Dr. Smith";
            description := Some "Basic concepts of computer science" |};
         {| id := 2; name := Some "Data Structures and Algorithms";
            code := Some "CS201"; credits := Some 4;
            instructor := Some "Dr. Johnson";
            description := Some "Advanced data structures and algorithm design" |};
         {| id := 3; name := Some "Database Systems";
            code := Some "CS301"; credits := Some 3;
            instructor := Some "Dr. Williams";
            description := Some "Relational database design and SQL" |} ];
     next_id := 4 |}.

Definition get_all_courses (self : CourseMockDataService) : list Course :=
  courses self.

(** [next((c for c in self.courses if c.id == course_id), None)]. *)
Definition get_course_by_id (self : CourseMockDataService) (course_id : Z)
    : option Course :=
  List.find (fun c => (id c =? course_id)%Z) (courses self).

Definition add_course (self : CourseMockDataService) (course_data : CourseCreate)
    : Course * CourseMockDataService :=
  let new_course :=
    {| id := next_id self;
       name := Some (new_name course_data);
       code := Some (new_code course_data);
       credits := Some (new_credits course_data);
       instructor := Some (new_instructor course_data);
       description := new_description course_data |} in
  (new_course,
   {| courses := (courses self ++ [new_course])%list;
      next_id := next_id self + 1 |}).

(** [setattr(course, key, value)] for one key of the dumped update. *)
Definition set_field {A : Type} (f : field A) (old : option A) : option A :=
  match f with
  | Unset => old
  | Provided v => v
  end.

(** The [for key, value in update_data.items(): setattr(...)] loop. *)
Definition apply_update (course : Course) (course_data : CourseUpdate) : Course :=
  {| id := id course;
     name := set_field (upd_name course_data) (name course);
     code := set_field (upd_code course_data) (code course);
     credits := set_field (upd_credits course_data) (credits course);
     instructor := set_field (upd_instructor course_data) (instructor course);
     description := set_field (upd_description course_data) (description course) |}.

(** The object that [get_course_by_id] returned is the first of the list
    with that id; mutating it changes that slot of the list. *)
Fixpoint mutate_first (course_id : Z) (f : Course -> Course) (l : list Course)
    : list Course :=
  match l with
  | [] => []
  | c :: rest =>
      if (id c =? course_id)%Z then f c :: rest
      else c :: mutate_first course_id f rest
  end.

Definition update_course (self : CourseMockDataService) (course_id : Z)
    (course_data : CourseUpdate) : option Course * CourseMockDataService :=
  match get_course_by_id self course_id with
  | Some course =>
      (Some (apply_update course course_data),
       {| courses :=
            mutate_first course_id (fun c => apply_update c course_data)
              (courses self);
          next_id := next_id self |})
  | None => (None, self)
  end.

(** [list.remove(x)]: the first element equal to [x] goes. *)
Fixpoint list_remove (x : Course) (l : list Course) : list Course :=
  match l with
  | [] => []
  | c :: rest => if decide (c = x) then rest else c :: list_remove x rest
  end.

Definition delete_course (self : CourseMockDataService) (course_id : Z)
    : bool * CourseMockDataService :=
  match get_course_by_id self course_id with
  | Some course =>
      (true,
       {| courses := list_remove course (courses self);
          next_id := next_id self |})
  | None => (false, self)
  end.

(** The ids in use are pairwise different and all below [next_id]. *)
Definition well_formed (self : CourseMockDataService) : Prop :=
  NoDup (map id (courses self))
  /\ Forall (fun c => id c < next_id self) (courses self).

End data_service.

Module service.
Import models data_service.

(** [service.CourseService]: one attribute, the data service, and five
    methods that pass their arguments on. *)
Record CourseService : Type := {
  data_service : CourseMockDataService
}.

Definition __init__ : CourseService :=
  {| data_service := data_service.__init__ |}.

Definition get_all (self : CourseService) : list Course :=
  get_all_courses (data_service self).

Definition get_by_id (self : CourseService) (course_id : Z) : option Course :=
  get_course_by_id (data_service self) course_id.

Definition create (self : CourseService) (course_data : CourseCreate)
    : Course * CourseService :=
  let '(c, ds) := add_course (data_service self) course_data in
  (c, {| data_service := ds |}).

Definition update (self : CourseService) (course_id : Z)
    (course_data : CourseUpdate) : option Course * CourseService :=
  let '(c, ds) := update_course (data_service self) course_id course_data in
  (c, {| data_service := ds |}).

Definition delete (self : CourseService) (course_id : Z)
    : bool * CourseService :=
  let '(ok, ds) := delete_course (data_service self) course_id in
  (ok, {| data_service := ds |}).

End service.

Module main.
Import models service.

(** The module-level [course_service = CourseService()]. *)
Definition course_service : CourseService := service.__init__.

(** What an endpoint of [main.py] returns, with the status code of its
    decorator. *)
Inductive reply : Type :=
| CourseList (status : Z) (body : list Course)
| OneCourse (status : Z) (body : Course)
| NoContent (status : Z).

Definition not_found : exn := HTTPException 404 (JStr "Course not found").

Definition get_all_courses (svc : CourseService) : result reply * CourseService :=
  (Ok (CourseList 200 (get_all svc)), svc).

Definition get_course (svc : CourseService) (course_id : Z)
    : result reply * CourseService :=
  match get_by_id svc course_id with
  | None => (Raise not_found, svc)
  | Some course => (Ok (OneCourse 200 course), svc)
  end.

Definition create_course (svc : CourseService) (course : CourseCreate)
    : result reply * CourseService :=
  let '(c, svc1) := create svc course in
  (Ok (OneCourse 201 c), svc1).

Definition update_course (svc : CourseService) (course_id : Z)
    (course : CourseUpdate) : result reply * CourseService :=
  match update svc course_id course with
  | (None, svc1) => (Raise not_found, svc1)
  | (Some updated_course, svc1) => (Ok (OneCourse 200 updated_course), svc1)
  end.

Definition delete_course (svc : CourseService) (course_id : Z)
    : result reply * CourseService :=
  match delete svc course_id with
  | (false, svc1) => (Raise not_found, svc1)
  | (true, svc1) => (Ok (NoContent 204), svc1)
  end.

(** A request to the course service, and the endpoint it reaches. *)
Inductive request : Type :=
| GetAll
| GetOne (course_id : Z)
| Create (course : CourseCreate)
| Update (course_id : Z) (course : CourseUpdate)
| Delete (course_id : Z).

Definition handle (svc : CourseService) (r : request) : result reply * CourseService :=
  match r with
  | GetAll => get_all_courses svc
  | GetOne course_id => get_course svc course_id
  | Create course => create_course svc course
  | Update course_id course => update_course svc course_id course
  | Delete course_id => delete_course svc course_id
  end.

(** The service after a sequence of requests. *)
Definition run (svc : CourseService) (rs : list request) : CourseService :=
  fold_left (fun s r => snd (handle s r)) rs svc.

(** The id a request is about, when it is about one: the id a creation
    will hand out, or the id in the path of an update or a deletion. *)
Definition target (svc : CourseService) (r : request) : option Z :=
  match r with
  | GetAll | GetOne _ => None
  | Create _ => Some (data_service.next_id (data_service svc))
  | Update course_id _ | Delete course_id => Some course_id
  end.

End main.

End CourseService.

(* ===================================================================== *)
(** ** gateway/main.py: the endpoints *)
(* ===================================================================== *)

(** [class LoginRequest(BaseModel)] of gateway/main.py. *)
Module RequestModels.

Record LoginRequest : Type := {
  username : string;
  password : string
}.

End RequestModels.

Module Endpoints.

Import Gateway.

(** [read_root]. *)
Definition read_root : json :=
  JDict [("message", JStr "API Gateway is running");
         ("available_services", JList (map JStr (keys SERVICES)));
         ("version", JStr "1.0.0")].

Section WithServices.

Variable SECRET_KEY : string.
Variable hs256 : string -> list (string * json) -> string.
Variable json_loads : string -> option json.
Variable transport : call -> result Response.

(** [current_user: dict = Depends(get_current_active_user)]: the
    dependency is resolved before the endpoint body runs, and an exception
    it raises is the outcome of the request.  The endpoints are modelled
    for requests that carry a bearer token; a request without one is
    stopped by [HTTPBearer] before [get_current_user] runs. *)
Definition depends {A : Type} (dependency : result Auth.principal)
    (endpoint : Auth.principal -> result A * list call) : result A * list call :=
  match dependency with
  | Ok current_user => endpoint current_user
  | Raise e => (Raise e, [])
  end.

(** [await request.json()] on the raw request body. *)
Definition request_json (raw_body : string) : result json :=
  match json_loads raw_body with
  | Some body => Ok body
  | None => Raise (OtherException "JSONDecodeError")
  end.

Definition get_current_user_info (st : Auth.auth_state) (credentials : Auth.token)
    (now : Z) : result json * list call :=
  depends (Auth.get_current_active_user SECRET_KEY hs256 st credentials now)
    (fun current_user =>
       (Ok (JDict [("username", JStr (Auth.p_username current_user));
                   ("role", JStr (Auth.p_role current_user))]),
        [])).

Definition get_all_students (st : Auth.auth_state) (credentials : Auth.token)
    (now : Z) : result JSONResponse * list call :=
  depends (Auth.get_current_active_user SECRET_KEY hs256 st credentials now)
    (fun _ => forward_request json_loads transport "student" "/api/students" "GET" None).

Definition get_student (student_id : Z) (st : Auth.auth_state)
    (credentials : Auth.token) (now : Z) : result JSONResponse * list call :=
  depends (Auth.get_current_active_user SECRET_KEY hs256 st credentials now)
    (fun _ =>
       forward_request json_loads transport "student"
         ("/api/students/" +:+ str_of_Z student_id) "GET" None).

Definition create_student (raw_body : string) (st : Auth.auth_state)
    (credentials : Auth.token) (now : Z) : result JSONResponse * list call :=
  depends (Auth.get_current_active_user SECRET_KEY hs256 st credentials now)
    (fun _ =>
       match request_json raw_body with
       | Raise e => (Raise e, [])
       | Ok body =>
           forward_request json_loads transport "student" "/api/students" "POST"
             (Some body)
       end).

Definition update_student (student_id : Z) (raw_body : string)
    (st : Auth.auth_state) (credentials : Auth.token) (now : Z)
    : result JSONResponse * list call :=
  depends (Auth.get_current_active_user SECRET_KEY hs256 st credentials now)
    (fun _ =>
       match request_json raw_body with
       | Raise e => (Raise e, [])
       | Ok body =>
           forward_request json_loads transport "student"
             ("/api/students/" +:+ str_of_Z student_id) "PUT" (Some body)
       end).

Definition delete_student (student_id : Z) (st : Auth.auth_state)
    (credentials : Auth.token) (now : Z) : result JSONResponse * list call :=
  depends (Auth.get_current_active_user SECRET_KEY hs256 st credentials now)
    (fun _ =>
       forward_request json_loads transport "student"
         ("/api/students/" +:+ str_of_Z student_id) "DELETE" None).

Definition get_all_courses (st : Auth.auth_state) (credentials : Auth.token)
    (now : Z) : result JSONResponse * list call :=
  depends (Auth.get_current_active_user SECRET_KEY hs256 st credentials now)
    (fun _ => forward_request json_loads transport "course" "/api/courses" "GET" None).

Definition get_course (course_id : Z) (st : Auth.auth_state)
    (credentials : Auth.token) (now : Z) : result JSONResponse * list call :=
  depends (Auth.get_current_active_user SECRET_KEY hs256 st credentials now)
    (fun _ =>
       forward_request json_loads transport "course"
         ("/api/courses/" +:+ str_of_Z course_id) "GET" None).

Definition create_course (raw_body : string) (st : Auth.auth_state)
    (credentials : Auth.token) (now : Z) : result JSONResponse * list call :=
  depends (Auth.get_current_active_user SECRET_KEY hs256 st credentials now)
    (fun _ =>
       match request_json raw_body with
       | Raise e => (Raise e, [])
       | Ok body =>
           forward_request json_loads transport "course" "/api/courses" "POST"
             (Some body)
       end).

Definition update_course (course_id : Z) (raw_body : string)
    (st : Auth.auth_state) (credentials : Auth.token) (now : Z)
    : result JSONResponse * list call :=
  depends (Auth.get_current_active_user SECRET_KEY hs256 st credentials now)
    (fun _ =>
       match request_json raw_body with
       | Raise e => (Raise e, [])
       | Ok body =>
           forward_request json_loads transport "course"
             ("/api/courses/" +:+ str_of_Z course_id) "PUT" (Some body)
       end).

Definition delete_course (course_id : Z) (st : Auth.auth_state)
    (credentials : Auth.token) (now : Z) : result JSONResponse * list call :=
  depends (Auth.get_current_active_user SECRET_KEY hs256 st credentials now)
    (fun _ =>
       forward_request json_loads transport "course"
         ("/api/courses/" +:+ str_of_Z course_id) "DELETE" None).

(** The ten proxied endpoints, as the router selects them by method and
    path. *)
Inductive proxied : Type :=
| GetAllStudents
| GetStudent (student_id : Z)
| CreateStudent (raw_body : string)
| UpdateStudent (student_id : Z) (raw_body : string)
| DeleteStudent (student_id : Z)
| GetAllCourses
| GetCourse (course_id : Z)
| CreateCourse (raw_body : string)
| UpdateCourse (course_id : Z) (raw_body : string)
| DeleteCourse (course_id : Z).

Definition serve (e : proxied) (st : Auth.auth_state) (credentials : Auth.token)
    (now : Z) : result JSONResponse * list call :=
  match e with
  | GetAllStudents => get_all_students st credentials now
  | GetStudent i => get_student i st credentials now
  | CreateStudent b => create_student b st credentials now
  | UpdateStudent i b => update_student i b st credentials now
  | DeleteStudent i => delete_student i st credentials now
  | GetAllCourses => get_all_courses st credentials now
  | GetCourse i => get_course i st credentials now
  | CreateCourse b => create_course b st credentials now
  | UpdateCourse i b => update_course i b st credentials now
  | DeleteCourse i => delete_course i st credentials now
  end.

End WithServices.

Section WithValidation.

Variable bcrypt : Auth.CryptContext.
Variable SECRET_KEY : string.
Variable hs256 : string -> list (string * json) -> string.
Variable json_loads : string -> option json.
(** pydantic's validation of a parsed request body against
    [LoginRequest] ([None]: a body that is not JSON): the model, or the
    errors it reports. *)
Variable validate_LoginRequest
  : option json -> RequestModels.LoginRequest + list json.

(** [POST /gateway/auth/login] from the raw request body.
    [login_data: LoginRequest]: FastAPI reads the body and validates it
    against the model before it calls [login], and raises
    [RequestValidationError] with pydantic's errors when it does not
    validate. *)
Definition login_endpoint (raw_body : string) (st : Auth.auth_state) (utcnow : Z)
    : result (Auth.token * Auth.principal) * Auth.auth_state :=
  match validate_LoginRequest (json_loads raw_body) with
  | inr errors => (Raise (RequestValidationError errors), st)
  | inl login_data =>
      login bcrypt SECRET_KEY hs256 st
        (RequestModels.username login_data) (RequestModels.password login_data)
        utcnow
  end.

End WithValidation.

(** The body an endpoint reads, for the endpoints that read one. *)
Definition raw_body_of (e : proxied) : option string :=
  match e with
  | CreateStudent b | UpdateStudent _ b | CreateCourse b | UpdateCourse _ b => Some b
  | _ => None
  end.

(** The method of the route and the logical service behind it. *)
Definition method_of (e : proxied) : string :=
  match e with
  | GetAllStudents | GetStudent _ | GetAllCourses | GetCourse _ => "GET"
  | CreateStudent _ | CreateCourse _ => "POST"
  | UpdateStudent _ _ | UpdateCourse _ _ => "PUT"
  | DeleteStudent _ | DeleteCourse _ => "DELETE"
  end.

Definition service_of (e : proxied) : string :=
  match e with
  | GetAllStudents | GetStudent _ | CreateStudent _ | UpdateStudent _ _
  | DeleteStudent _ => "student"
  | _ => "course"
  end.

End Endpoints.

Module MoreSamples.

Import Samples.

(** A validation of login bodies: a JSON object with a string under
    [username] and under [password] gives the model, anything else a report
    of a missing field. *)
Definition sample_validate_LoginRequest (body : option json)
    : RequestModels.LoginRequest + list json :=
  match body with
  | Some (JDict kv) =>
      match assoc_get "username" kv, assoc_get "password" kv with
      | Some (JStr u), Some (JStr p) =>
          inl {| RequestModels.username := u; RequestModels.password := p |}
      | _, _ =>
          inr [JDict [("type", JStr "missing"); ("msg", JStr "Field required")]]
      end
  | _ => inr [JDict [("type", JStr "missing"); ("msg", JStr "Field required")]]
  end.

(** A backend that answers 200 with a body that parses to NaN. *)
Definition nan_backend (c : Gateway.call) : result Gateway.Response :=
  Ok {| Gateway.status_code := 200; Gateway.text := "NaN" |}.

(** [json.loads] on the bodies of [sample_json_loads] and on [NaN]. *)
Definition sample_json_loads_nan (s : string) : option json :=
  if String.eqb s "NaN" then Some (JFloat NaN) else sample_json_loads s.

(** A backend that answers 200 with an empty JSON object, and one that
    answers 404 with a body that is not JSON. *)
Definition ok_backend (c : Gateway.call) : result Gateway.Response :=
  Ok {| Gateway.status_code := 200; Gateway.text := "{}" |}.

Definition plain_404_backend (c : Gateway.call) : result Gateway.Response :=
  Ok {| Gateway.status_code := 404; Gateway.text := "Not Found" |}.

(** A token for the administrator that claims another role. *)
Definition relabelled_token : Auth.token :=
  Auth.create_access_token secret sample_hs256
    [("sub", JStr "admin"); ("role", JStr "superuser")] (Some 600) 1200.

Definition new_course : CourseService.models.CourseCreate :=
  {| CourseService.models.new_name := "Operating Systems";
     CourseService.models.new_code := "CS401";
     CourseService.models.new_credits := 4;
     CourseService.models.new_instructor := "Dr. Brown";
     CourseService.models.new_description := None |}.

(** An update that provides a new name and nothing else, and one that
    provides nothing. *)
Definition rename : CourseService.models.CourseUpdate :=
  {| CourseService.models.upd_name :=
       CourseService.models.Provided (Some "Algorithms");
     CourseService.models.upd_code := CourseService.models.Unset;
     CourseService.models.upd_credits := CourseService.models.Unset;
     CourseService.models.upd_instructor := CourseService.models.Unset;
     CourseService.models.upd_description := CourseService.models.Unset |}.

Definition no_change : CourseService.models.CourseUpdate :=
  {| CourseService.models.upd_name := CourseService.models.Unset;
     CourseService.models.upd_code := CourseService.models.Unset;
     CourseService.models.upd_credits := CourseService.models.Unset;
     CourseService.models.upd_instructor := CourseService.models.Unset;
     CourseService.models.upd_description := CourseService.models.Unset |}.

Definition courses_request : Middleware.Request :=
  {| Middleware.req_method := "GET";
     Middleware.req_path := "/gateway/courses";
     Middleware.req_client := None;
     Middleware.req_query_params := [] |}.

(** A pipeline that answers 200 and logs one record of its own. *)
Definition chatty_pipeline (r : Middleware.Request) (log : list Middleware.log_record)
    : result Gateway.JSONResponse * list Middleware.log_record :=
  (Ok {| Gateway.resp_status := 200; Gateway.content := JDict [] |},
   (log ++ [Middleware.LogRequest "GET" "/inner" "pipeline" []])%list).

End MoreSamples.

(* ===================================================================== *)
(** ** Properties of the token layer *)
(* ===================================================================== *)

Section TokenProperties.

Import Auth Spec.

Variable SECRET_KEY : string.
Variable hs256 : string -> list (string * json) -> string.

Lemma assoc_get_set_same {V : Type} (k : string) (v : V) (d : list (string * V)) :
  assoc_get k (assoc_set k v d) = Some v.
Proof.
  induction d as [|[k' v'] rest IH]; simpl.
  - now rewrite String.eqb_refl.
  - destruct (String.eqb k k') eqn:E; simpl; rewrite ?String.eqb_refl, ?E; auto.
Qed.

(** The claim checks on claims that carry, of the claims the library
    looks at, only an integer [exp] and a string [sub]. *)
Lemma validate_claims_plain (claims : list (string * json)) (e now : Z)
    (name : string) :
  assoc_get "iat" claims = None ->
  assoc_get "nbf" claims = None ->
  assoc_get "aud" claims = None ->
  assoc_get "jti" claims = None ->
  assoc_get "at_hash" claims = None ->
  assoc_get "exp" claims = Some (JInt e) ->
  assoc_get "sub" claims = Some (JStr name) ->
  _validate_claims claims now
  = if (e <? now)%Z then Raise (JWTError Expired) else Ok tt.
Proof.
  intros Hiat Hnbf Haud Hjti Hhash Hexp Hsub.
  unfold _validate_claims, _validate_iat, _validate_nbf, _validate_exp,
    _validate_aud, _validate_sub, _validate_jti, _validate_at_hash, int_claim.
  rewrite Hiat, Hnbf, Haud, Hjti, Hhash, Hexp, Hsub. cbn [rbind py_int].
  now destruct (e <? now)%Z.
Qed.

(** Claims that pass the checks have no [sub] or a string [sub]. *)
Lemma validate_claims_sub (claims : list (string * json)) (now : Z) :
  _validate_claims claims now = Ok tt ->
  assoc_get "sub" claims = None
  \/ exists name, assoc_get "sub" claims = Some (JStr name).
Proof.
  unfold _validate_claims.
  destruct (_validate_iat claims) as [[]|]; [|discriminate].
  destruct (_validate_nbf claims now) as [[]|]; [|discriminate].
  destruct (_validate_exp claims now) as [[]|]; [|discriminate].
  destruct (_validate_aud claims) as [[]|]; [|discriminate].
  cbn [rbind]. unfold _validate_sub.
  destruct (assoc_get "sub" claims) as [[| | | name | | |]|];
    cbn [rbind]; try discriminate; eauto.
Qed.

(** A token decodes to the claims it carries. *)
Lemma jwt_decode_ok (t : token) (now : Z) (claims : list (string * json)) :
  jwt_decode hs256 t SECRET_KEY [ALGORITHM] now = Ok claims ->
  (exists alg sig, t = Compact alg claims sig)
  /\ _validate_claims claims now = Ok tt.
Proof.
  destruct t as [alg claims0 sig | raw]; unfold jwt_decode; [|discriminate].
  destruct (negb (existsb (String.eqb alg) [ALGORITHM])); [discriminate|].
  destruct (negb (String.eqb sig (hs256 SECRET_KEY claims0))); [discriminate|].
  destruct (_validate_claims claims0 now) as [[]|] eqn:Hv; cbn [rbind];
    [|discriminate].
  intros [= <-]. split; [eauto | exact Hv].
Qed.

(** A correctly signed token of the gateway's algorithm decodes to its own
    claims as long as [exp] has not passed, [sub] is a string and none of
    the other claims the library checks is there. *)
Lemma jwt_decode_encode (claims : list (string * json)) (e now : Z) (name : string) :
  assoc_get "iat" claims = None ->
  assoc_get "nbf" claims = None ->
  assoc_get "aud" claims = None ->
  assoc_get "jti" claims = None ->
  assoc_get "at_hash" claims = None ->
  assoc_get "exp" claims = Some (JInt e) ->
  assoc_get "sub" claims = Some (JStr name) ->
  now <= e ->
  jwt_decode hs256 (jwt_encode hs256 claims SECRET_KEY ALGORITHM)
    SECRET_KEY [ALGORITHM] now = Ok claims.
Proof.
  intros Hiat Hnbf Haud Hjti Hhash Hexp Hsub Hnow. unfold jwt_decode, jwt_encode.
  change (existsb (String.eqb ALGORITHM) [ALGORITHM]) with true.
  rewrite String.eqb_refl. cbn [negb].
  rewrite (validate_claims_plain claims e now name) by assumption.
  destruct (Z.ltb_spec e now); [lia | reflexivity].
Qed.

(** What [get_current_user] does with a token that decodes: the registry
    entry stored under the subject decides. *)
Lemma get_current_user_decoded (st : auth_state) (t : token) (now : Z)
    (claims : list (string * json)) (name : string) :
  jwt_decode hs256 t SECRET_KEY [ALGORITHM] now = Ok claims ->
  assoc_get "sub" claims = Some (JStr name) ->
  get_current_user SECRET_KEY hs256 st t now =
    match USERS_DB st !! name with
    | Some u => Ok (principal_of u)
    | None => Raise credentials_exception
    end.
Proof.
  intros Hdec Hsub. unfold get_current_user. rewrite Hdec. simpl.
  rewrite Hsub. simpl. reflexivity.
Qed.

(** A token that is invalid in one of the three ways never decodes:
    python-jose raises one of its [JWTError]s. *)
Lemma jwt_decode_invalid (t : token) (now : Z) :
  invalid_token SECRET_KEY hs256 now t ->
  exists why, jwt_decode hs256 t SECRET_KEY [ALGORITHM] now = Raise (JWTError why).
Proof.
  intros [raw | alg claims sig Hsig | alg claims v e Hiat Hnbf Hexp Hint Hlt];
    unfold jwt_decode.
  - now exists BadToken.
  - destruct (negb (existsb (String.eqb alg) [ALGORITHM])); [now exists BadSignature|].
    destruct (String.eqb_spec sig (hs256 SECRET_KEY claims)); [congruence|].
    now exists BadSignature.
  - destruct (negb (existsb (String.eqb alg) [ALGORITHM])); [now exists BadSignature|].
    rewrite String.eqb_refl. cbn [negb].
    unfold _validate_claims. rewrite Hiat, Hnbf. cbn [rbind].
    unfold _validate_exp, int_claim. rewrite Hexp, Hint.
    destruct (Z.ltb_spec e now); [|lia]. now exists Expired.
Qed.

Lemma get_current_user_invalid (st : auth_state) (t : token) (now : Z) :
  invalid_token SECRET_KEY hs256 now t ->
  get_current_user SECRET_KEY hs256 st t now = Raise credentials_exception.
Proof.
  intros Hinv. destruct (jwt_decode_invalid t now Hinv) as [why Hdec].
  unfold get_current_user. now rewrite Hdec.
Qed.

(** The claims of a token issued for a user name and a role decode until
    the expiry. *)
Lemma issued_token_decodes (name r : string) (expires_delta : option Z)
    (issued now : Z) :
  now <= expire_at expires_delta issued ->
  jwt_decode hs256
    (create_access_token SECRET_KEY hs256
       [("sub", JStr name); ("role", JStr r)] expires_delta issued)
    SECRET_KEY [ALGORITHM] now
  = Ok (assoc_set "exp" (JInt (expire_at expires_delta issued))
          [("sub", JStr name); ("role", JStr r)]).
Proof.
  intros Hnow. unfold create_access_token.
  apply jwt_decode_encode with (e := expire_at expires_delta issued) (name := name);
    try reflexivity; exact Hnow.
Qed.

(** A token issued for a registry entry verifies to that entry until it
    expires. *)
Lemma issued_token_verifies (st : auth_state) (name : string) (u : user)
    (expires_delta : option Z) (issued now : Z) :
  USERS_DB st !! name = Some u ->
  username u = name ->
  now <= expire_at expires_delta issued ->
  get_current_user SECRET_KEY hs256 st
    (create_access_token SECRET_KEY hs256
       [("sub", JStr name); ("role", JStr (role u))] expires_delta issued)
    now
  = Ok {| p_username := name; p_role := role u |}.
Proof.
  intros Hu Hname Hnow.
  rewrite (get_current_user_decoded st _ now _ name
             (issued_token_decodes name (role u) expires_delta issued now Hnow)
             eq_refl).
  rewrite Hu. unfold principal_of. now rewrite Hname.
Qed.

(** C2: a token that [create_access_token] issues with [sub] and [role] of
    a registry entry verifies, at any time up to its expiry, to the
    principal with that user name and that role. *)
Theorem token_roundtrip (st : auth_state) (name : string) (u : user)
    (expires_delta : option Z) (issued now : Z) :
  USERS_DB st !! name = Some u ->
  username u = name ->
  now <= expire_at expires_delta issued ->
  get_current_user SECRET_KEY hs256 st
    (create_access_token SECRET_KEY hs256
       [("sub", JStr name); ("role", JStr (role u))] expires_delta issued)
    now
  = Ok {| p_username := name; p_role := role u |}.
Proof.
  intros Hu Hname Hnow. now apply issued_token_verifies.
Qed.

(** Two tokens that are invalid, each in one of the three ways of
    [invalid_token], get the same outcome from [get_current_user], the 401
    exception with the fixed text, and hence the same response from the
    exception handler. *)
Lemma invalid_tokens_indistinguishable (st : auth_state) (t1 t2 : token)
    (now : Z) (request_path : string) :
  invalid_token SECRET_KEY hs256 now t1 ->
  invalid_token SECRET_KEY hs256 now t2 ->
  get_current_user SECRET_KEY hs256 st t1 now
    = Raise (HTTPException 401 (JStr "Could not validate credentials"))
  /\ get_current_user SECRET_KEY hs256 st t2 now
     = get_current_user SECRET_KEY hs256 st t1 now
  /\ Gateway.failure_response request_path
       (HTTPException 401 (JStr "Could not validate credentials"))
     = {| Gateway.resp_status := 401;
          Gateway.content :=
            JDict [("error", JStr "Error");
                   ("message", JStr "Could not validate credentials");
                   ("status_code", JInt 401);
                   ("path", JStr request_path)] |}.
Proof.
  intros H1 H2.
  rewrite (get_current_user_invalid st t1 now H1),
          (get_current_user_invalid st t2 now H2).
  repeat split.
Qed.

(** A correctly signed token that reaches the check of [exp] with an [exp]
    that is [null], a list or an object: [int(...)] raises [TypeError],
    which is not a [JWTError], so it passes the [except] clause of
    [get_current_user] unchanged. *)
Lemma get_current_user_exp_type_error (st : auth_state)
    (claims : list (string * json)) (v : json) (msg : string) (now : Z) :
  _validate_iat claims = Ok tt ->
  _validate_nbf claims now = Ok tt ->
  assoc_get "exp" claims = Some v ->
  py_int v = Raise (TypeError msg) ->
  get_current_user SECRET_KEY hs256 st
    (Compact ALGORITHM claims (hs256 SECRET_KEY claims)) now
  = Raise (TypeError msg).
Proof.
  intros Hiat Hnbf Hexp Hint. unfold get_current_user, jwt_decode.
  change (existsb (String.eqb ALGORITHM) [ALGORITHM]) with true.
  rewrite String.eqb_refl. cbn [negb].
  unfold _validate_claims. rewrite Hiat, Hnbf. cbn [rbind].
  unfold _validate_exp, int_claim. rewrite Hexp, Hint. reflexivity.
Qed.

(** C4, at the input on which the code departs from it: a correctly signed
    token whose [exp] is [null] makes the library raise [TypeError], which
    [except JWTError] does not catch, and the client is answered 500 by the
    general handler, while a string that does not parse as a token is
    answered with the 401: the two invalid tokens can be told apart. *)
Theorem null_expiry_token_answered_500 (st : auth_state)
    (claims : list (string * json)) (raw : string) (now : Z)
    (request_path : string) :
  _validate_iat claims = Ok tt ->
  _validate_nbf claims now = Ok tt ->
  assoc_get "exp" claims = Some JNull ->
  get_current_user SECRET_KEY hs256 st
    (Compact ALGORITHM claims (hs256 SECRET_KEY claims)) now
  = Raise (TypeError "int() argument must be a string or a real number")
  /\ Gateway.failure_response request_path
       (TypeError "int() argument must be a string or a real number")
     = Gateway.general_exception_handler request_path
  /\ get_current_user SECRET_KEY hs256 st (Unparseable raw) now
     = Raise (HTTPException 401 (JStr "Could not validate credentials"))
  /\ Gateway.resp_status
       (Gateway.failure_response request_path
          (HTTPException 401 (JStr "Could not validate credentials")))
     = 401.
Proof.
  intros Hiat Hnbf Hexp. split; [|repeat split].
  now apply (get_current_user_exp_type_error st claims JNull).
Qed.

(** Nothing but the library's own errors and the two uncaught errors of
    [int(...)] leaves [decode]. *)
Lemma int_claim_raises (name : string) (claims : list (string * json))
    (check : Z -> result unit) (e : exn) :
  (forall n e', check n = Raise e' -> decode_exception e') ->
  int_claim name claims check = Raise e -> decode_exception e.
Proof.
  intros Hcheck. unfold int_claim.
  destruct (assoc_get name claims) as [v|]; [|discriminate].
  destruct v as [| b | n | str | xs | kv | [m ex | neg |]]; cbn [py_int];
    try (intros [= <-]; exact I); try apply Hcheck.
  destruct (int_of_str str); [apply Hcheck | intros [= <-]; exact I].
Qed.

Lemma jwt_decode_raises (t : token) (now : Z) (e : exn) :
  jwt_decode hs256 t SECRET_KEY [ALGORITHM] now = Raise e -> decode_exception e.
Proof.
  destruct t as [alg claims sig | raw]; unfold jwt_decode;
    [|intros [= <-]; exact I].
  destruct (negb (existsb (String.eqb alg) [ALGORITHM])); [intros [= <-]; exact I|].
  destruct (negb (String.eqb sig (hs256 SECRET_KEY claims)));
    [intros [= <-]; exact I|].
  unfold _validate_claims.
  destruct (_validate_iat claims) as [[]|e1] eqn:H1; cbn [rbind];
    [|intros [= <-]; revert H1; apply int_claim_raises; discriminate].
  destruct (_validate_nbf claims now) as [[]|e2] eqn:H2; cbn [rbind];
    [|intros [= <-]; revert H2; apply int_claim_raises;
      intros n e'; destruct (now <? n)%Z; [intros [= <-]; exact I | discriminate]].
  destruct (_validate_exp claims now) as [[]|e3] eqn:H3; cbn [rbind];
    [|intros [= <-]; revert H3; apply int_claim_raises;
      intros n e'; destruct (n <? now)%Z; [intros [= <-]; exact I | discriminate]].
  unfold _validate_aud, _validate_sub, _validate_jti, _validate_at_hash.
  destruct (assoc_get "aud" claims); cbn [rbind]; [intros [= <-]; exact I|].
  destruct (assoc_get "sub" claims) as [[| | | name | | |]|]; cbn [rbind];
    try (intros [= <-]; exact I);
    (destruct (assoc_get "jti" claims) as [[| | | jti | | |]|]; cbn [rbind];
     try (intros [= <-]; exact I);
     (destruct (assoc_get "at_hash" claims); cbn [rbind];
      [intros [= <-]; exact I | discriminate])).
Qed.

(** The three ways [get_current_user] can go on a token, uniformly in the
    registry: an exception of the library that is no [JWTError] passes
    through; or the 401 exception is raised whatever the registry holds; or
    the lookup of the token's subject decides. *)
Lemma get_current_user_cases (t : token) (now : Z) :
  (exists e,
      jwt_decode hs256 t SECRET_KEY [ALGORITHM] now = Raise e
      /\ ~ settled (jwt_decode hs256 t SECRET_KEY [ALGORITHM] now)
      /\ forall st, get_current_user SECRET_KEY hs256 st t now = Raise e)
  \/ (forall st, get_current_user SECRET_KEY hs256 st t now
                 = Raise credentials_exception)
  \/ (exists name,
        token_subject t = Some name
        /\ forall st, get_current_user SECRET_KEY hs256 st t now
                      = match USERS_DB st !! name with
                        | Some u => Ok (principal_of u)
                        | None => Raise credentials_exception
                        end).
Proof.
  destruct (jwt_decode hs256 t SECRET_KEY [ALGORITHM] now) as [claims | e] eqn:Hdec.
  - destruct (jwt_decode_ok t now claims Hdec) as [(alg & sig & ->) Hv].
    destruct (validate_claims_sub claims now Hv) as [Hsub | [name Hsub]].
    + right. left. intros st. unfold get_current_user. rewrite Hdec.
      cbn [rbind try_except]. now rewrite Hsub.
    + right. right. exists name. split.
      * cbn [token_subject]. now rewrite Hsub.
      * intros st. now apply get_current_user_decoded with (claims := claims).
  - destruct e;
      try (left; eexists; split; [reflexivity|]; split; [intros []|];
           intros st; unfold get_current_user; rewrite Hdec; reflexivity).
    right. left. intros st. unfold get_current_user. now rewrite Hdec.
Qed.


(** An exception of [get_current_user] is the 401 exception or one of the
    two errors of [int(...)]; either way its handler answers with text. *)
Lemma get_current_user_raises (st : auth_state) (t : token) (now : Z) (e : exn) :
  get_current_user SECRET_KEY hs256 st t now = Raise e ->
  e = credentials_exception
  \/ (decode_exception e
      /\ jwt_decode hs256 t SECRET_KEY [ALGORITHM] now = Raise e
      /\ ~ settled (jwt_decode hs256 t SECRET_KEY [ALGORITHM] now)).
Proof.
  destruct (get_current_user_cases t now)
    as [(e0 & Hdec & Hesc & Hall) | [Hall | (name & Hsubj & Hall)]];
    rewrite Hall.
  - intros [= <-]. right. split; [|split]; auto.
    now apply (jwt_decode_raises t now).
  - intros [= <-]. now left.
  - destruct (USERS_DB st !! name); [discriminate|]. intros [= <-]. now left.
Qed.

End TokenProperties.

(* ===================================================================== *)
(** ** Properties of the credential check *)
(* ===================================================================== *)

Section CredentialProperties.

Import Auth Spec.

Variable bcrypt : CryptContext.

Lemma hashed_users_lookup (h_admin h_user name : string) :
  hashed_users h_admin h_user !! name =
    if String.eqb name "admin" then
      Some {| username := "admin"; hashed_password := h_admin; role := "admin" |}
    else if String.eqb name "user" then
      Some {| username := "user"; hashed_password := h_user; role := "user" |}
    else None.
Proof.
  unfold hashed_users.
  destruct (String.eqb_spec name "admin") as [->|Ha].
  - now rewrite lookup_insert_eq.
  - rewrite lookup_insert_ne by congruence.
    destruct (String.eqb_spec name "user") as [->|Hu].
    + now rewrite lookup_insert_eq.
    + rewrite lookup_insert_ne by congruence. apply lookup_empty.
Qed.

Lemma hashed_users_keyed (h_admin h_user name : string) (u : user) :
  hashed_users h_admin h_user !! name = Some u -> username u = name.
Proof.
  rewrite hashed_users_lookup.
  destruct (String.eqb_spec name "admin") as [->|_]; [now intros [= <-]|].
  destruct (String.eqb_spec name "user") as [->|_]; [now intros [= <-]|].
  discriminate.
Qed.

(** The registry a first initialisation installs: the hashed table when
    both hashes can be computed, the plain-text table otherwise. *)
Lemma init_users_db_fresh (st : auth_state) :
  _users_db_initialized st = false ->
  _users_db_initialized (_init_users_db bcrypt st) = true
  /\ USERS_DB (_init_users_db bcrypt st) =
       match _pwd_context st with
       | Some ctx =>
           match ctx_hash ctx "admin123", ctx_hash ctx "user123" with
           | Some h_admin, Some h_user => hashed_users h_admin h_user
           | _, _ => hashed_users "admin123" "user123"
           end
       | None =>
           match ctx_hash bcrypt "admin123", ctx_hash bcrypt "user123" with
           | Some h_admin, Some h_user => hashed_users h_admin h_user
           | _, _ => hashed_users "admin123" "user123"
           end
       end.
Proof.
  intros Hinit. unfold _init_users_db, get_pwd_context. rewrite Hinit.
  destruct (_pwd_context st) as [ctx|].
  - destruct (ctx_hash ctx "admin123"), (ctx_hash ctx "user123"); now split.
  - destruct (ctx_hash bcrypt "admin123"), (ctx_hash bcrypt "user123"); now split.
Qed.

Lemma init_users_db_done (st : auth_state) :
  _users_db_initialized st = true -> _init_users_db bcrypt st = st.
Proof.
  intros Hinit. unfold _init_users_db. now rewrite Hinit.
Qed.

Lemma init_users_db_initialized (st : auth_state) :
  _users_db_initialized (_init_users_db bcrypt st) = true.
Proof.
  destruct (_users_db_initialized st) eqn:Hinit.
  - now rewrite init_users_db_done.
  - now destruct (init_users_db_fresh st Hinit).
Qed.

(** A second initialisation changes nothing. *)
Lemma init_users_db_idempotent (st : auth_state) :
  _init_users_db bcrypt (_init_users_db bcrypt st) = _init_users_db bcrypt st.
Proof.
  apply init_users_db_done, init_users_db_initialized.
Qed.

(** The state [authenticate_user] works on after its first two lines. *)
Lemma authenticate_user_init (st : auth_state) :
  (if _users_db_initialized st then st else _init_users_db bcrypt st)
  = _init_users_db bcrypt st.
Proof.
  destruct (_users_db_initialized st) eqn:Hinit; [|reflexivity].
  now rewrite init_users_db_done.
Qed.

Lemma init_users_db_keyed (st : auth_state) :
  registry_keyed st -> registry_keyed (_init_users_db bcrypt st).
Proof.
  intros Hst. destruct (_users_db_initialized st) eqn:Hinit.
  - now rewrite init_users_db_done.
  - destruct (init_users_db_fresh st Hinit) as [_ Hdb].
    intros name u. rewrite Hdb.
    destruct (_pwd_context st) as [ctx|];
      repeat match goal with
             | |- context [match ?x with Some _ => _ | None => _ end] => destruct x
             end; apply hashed_users_keyed.
Qed.

(** [authenticate_user] leaves the registry as the (possibly first)
    initialisation made it. *)
Lemma authenticate_user_registry (st : auth_state) (name password : string) :
  USERS_DB (snd (authenticate_user bcrypt st name password))
  = USERS_DB (_init_users_db bcrypt st)
  /\ _users_db_initialized (snd (authenticate_user bcrypt st name password)) = true.
Proof.
  unfold authenticate_user. rewrite authenticate_user_init.
  pose proof (init_users_db_initialized st) as Hdone.
  destruct (USERS_DB (_init_users_db bcrypt st) !! name) as [u|]; [|now split].
  destruct (String.eqb (hashed_password u) password); [now split|].
  unfold verify_password, get_pwd_context.
  destruct (_pwd_context (_init_users_db bcrypt st)) as [ctx|]; simpl.
  - destruct (ctx_verify ctx password (hashed_password u)) as [[|]|]; now split.
  - destruct (ctx_verify bcrypt password (hashed_password u)) as [[|]|]; now split.
Qed.

Lemma authenticate_user_keyed (st : auth_state) (name password : string) :
  registry_keyed st ->
  registry_keyed (snd (authenticate_user bcrypt st name password)).
Proof.
  intros Hst n u.
  destruct (authenticate_user_registry st name password) as [-> _].
  now apply init_users_db_keyed.
Qed.

(** A principal that [authenticate_user] returns is the registry entry
    stored under the submitted name. *)
Lemma authenticate_user_principal (st : auth_state) (name password : string)
    (p : principal) :
  fst (authenticate_user bcrypt st name password) = Ok (Some p) ->
  exists u, USERS_DB (snd (authenticate_user bcrypt st name password)) !! name = Some u
            /\ p = principal_of u.
Proof.
  destruct (authenticate_user_registry st name password) as [-> _].
  unfold authenticate_user. rewrite authenticate_user_init.
  destruct (USERS_DB (_init_users_db bcrypt st) !! name) as [u|]; [|discriminate].
  destruct (String.eqb (hashed_password u) password).
  - intros [= <-]. now exists u.
  - destruct (verify_password bcrypt (_init_users_db bcrypt st) password
                (hashed_password u)) as [[[|]|e] st2]; simpl; try discriminate.
    intros [= <-]. now exists u.
Qed.

(** A user name that is not in the registry is rejected, in either mode. *)
Lemma authenticate_unknown_user (name password : string) :
  name <> "admin" -> name <> "user" ->
  fst (authenticate_user bcrypt initial_state name password) = Ok None.
Proof.
  intros Ha Hu. unfold authenticate_user. cbn [_users_db_initialized initial_state].
  destruct (init_users_db_fresh initial_state eq_refl) as [_ Hdb].
  rewrite Hdb. cbn [_pwd_context initial_state].
  assert (Hmiss : forall a b, hashed_users a b !! name = None).
  { intros a b. rewrite hashed_users_lookup.
    destruct (String.eqb_spec name "admin"); [congruence|].
    destruct (String.eqb_spec name "user"); [congruence|reflexivity]. }
  destruct (ctx_hash bcrypt "admin123"), (ctx_hash bcrypt "user123");
    now rewrite Hmiss.
Qed.

(** The two registered pairs are accepted with the registry's role, when
    the context verifies the hashes it computed (and also when it cannot
    hash at all: the plain-text table then matches by equality). *)
Lemma authenticate_registered_pair (name password : string) :
  (forall p h, ctx_hash bcrypt p = Some h -> ctx_verify bcrypt p h = Some true) ->
  (name = "admin" /\ password = "admin123")
  \/ (name = "user" /\ password = "user123") ->
  fst (authenticate_user bcrypt initial_state name password)
  = Ok (Some {| p_username := name; p_role := name |}).
Proof.
  intros Hverify Hpair. unfold authenticate_user.
  cbn [_users_db_initialized initial_state].
  destruct (init_users_db_fresh initial_state eq_refl) as [_ Hdb].
  rewrite Hdb. cbn [_pwd_context initial_state].
  unfold verify_password, get_pwd_context, _init_users_db, get_pwd_context.
  cbn [_users_db_initialized _pwd_context initial_state].
  destruct (ctx_hash bcrypt "admin123") as [h_admin|] eqn:Hadmin;
    destruct (ctx_hash bcrypt "user123") as [h_user|] eqn:Huser;
    rewrite hashed_users_lookup;
    destruct Hpair as [[-> ->] | [-> ->]]; simpl;
    try reflexivity.
  - destruct (String.eqb h_admin "admin123"); [reflexivity|].
    now rewrite (Hverify _ _ Hadmin).
  - destruct (String.eqb h_user "user123"); [reflexivity|].
    now rewrite (Hverify _ _ Huser).
Qed.

(** A wrong password for a registered user is rejected when the context
    answers [False] for it and the password is not the stored string. *)
Lemma authenticate_wrong_password (st : auth_state) (name password : string)
    (u : user) :
  _users_db_initialized st = true ->
  _pwd_context st = Some bcrypt ->
  USERS_DB st !! name = Some u ->
  hashed_password u <> password ->
  ctx_verify bcrypt password (hashed_password u) = Some false ->
  fst (authenticate_user bcrypt st name password) = Ok None.
Proof.
  intros Hinit Hctx Hu Hne Hverify. unfold authenticate_user.
  rewrite Hinit, Hu.
  destruct (String.eqb_spec (hashed_password u) password); [congruence|].
  unfold verify_password, get_pwd_context. now rewrite Hctx, Hverify.
Qed.

(** C3, at the input on which the code departs from it: once the registry
    holds hashes, submitting the stored hash of a user as the password is
    accepted, by the equality test meant for the plain-text table. *)
Theorem stored_hash_authenticates (h_admin h_user : string) :
  ctx_hash bcrypt "admin123" = Some h_admin ->
  ctx_hash bcrypt "user123" = Some h_user ->
  fst (authenticate_user bcrypt initial_state "admin" h_admin)
  = Ok (Some {| p_username := "admin"; p_role := "admin" |}).
Proof.
  intros Hadmin Huser. unfold authenticate_user.
  cbn [_users_db_initialized initial_state].
  destruct (init_users_db_fresh initial_state eq_refl) as [_ Hdb].
  rewrite Hdb. cbn [_pwd_context initial_state].
  rewrite Hadmin, Huser, hashed_users_lookup. simpl.
  now rewrite String.eqb_refl.
Qed.

(** With the plain-text table, a wrong password for a registered user ends
    in the exception of [verify] (the stored string is not a hash), not in
    [None], unlike an unknown user name. *)
Lemma degraded_wrong_password_raises (password : string) :
  ctx_hash bcrypt "admin123" = None ->
  ctx_verify bcrypt password "admin123" = None ->
  password <> "admin123" ->
  fst (authenticate_user bcrypt initial_state "admin" password)
  = Raise (OtherException "passlib").
Proof.
  intros Hhash Hverify Hne. unfold authenticate_user.
  cbn [_users_db_initialized initial_state].
  destruct (init_users_db_fresh initial_state eq_refl) as [_ Hdb].
  rewrite Hdb. cbn [_pwd_context initial_state].
  rewrite Hhash, hashed_users_lookup.
  change (String.eqb "admin" "admin") with true. cbn [hashed_password].
  destruct (String.eqb_spec "admin123" password); [congruence|].
  unfold verify_password, get_pwd_context, _init_users_db, get_pwd_context.
  cbn [_users_db_initialized _pwd_context initial_state].
  rewrite Hhash. cbn [_pwd_context]. now rewrite Hverify.
Qed.

End CredentialProperties.

(* ===================================================================== *)
(** ** Properties of the request forwarder and the exception handlers *)
(* ===================================================================== *)

Section ForwarderProperties.

Import Gateway Spec.

Variable json_loads : string -> option json.
Variable transport : call -> result Response.

(** A supported method leads to exactly one call, of that method. *)
Lemma try_body_supported (service path method url : string) (kwargs : option json) :
  supported_method method = true ->
  try_body json_loads transport service path method url kwargs
  = (let! response :=
       transport {| call_method := method; call_url := url; call_json := kwargs |} in
     translate_response json_loads service path response,
     [{| call_method := method; call_url := url; call_json := kwargs |}]).
Proof.
  unfold supported_method, try_body, client_get, client_post, client_put,
    client_delete.
  destruct (String.eqb_spec method "GET") as [->|_]; [reflexivity|].
  destruct (String.eqb_spec method "POST") as [->|_]; [reflexivity|].
  destruct (String.eqb_spec method "PUT") as [->|_]; [reflexivity|].
  destruct (String.eqb_spec method "DELETE") as [->|_]; [reflexivity|].
  discriminate.
Qed.

(** An unsupported method leads to no call. *)
Lemma try_body_unsupported (service path method url : string) (kwargs : option json) :
  supported_method method = false ->
  try_body json_loads transport service path method url kwargs
  = (Raise (HTTPException 405
              (JDict [("error", JStr "Method Not Allowed");
                      ("message",
                       JStr ("HTTP method '" +:+ method +:+ "' is not supported"));
                      ("allowed_methods",
                       JList [JStr "GET"; JStr "POST"; JStr "PUT"; JStr "DELETE"])])),
     []).
Proof.
  unfold supported_method, try_body.
  destruct (String.eqb method "GET"); [discriminate|].
  destruct (String.eqb method "POST"); [discriminate|].
  destruct (String.eqb method "PUT"); [discriminate|].
  destruct (String.eqb method "DELETE"); [discriminate|reflexivity].
Qed.

(** The outcome of a forwarded call, in terms of the one backend call. *)
Lemma forward_request_supported (service base path method : string)
    (kwargs : option json) :
  assoc_get service SERVICES = Some base ->
  supported_method method = true ->
  forward_request json_loads transport service path method kwargs
  = (try_except
       (let! response :=
          transport {| call_method := method; call_url := base +:+ path;
                       call_json := kwargs |} in
        translate_response json_loads service path response)
       (except_clauses service (base +:+ path)),
     [{| call_method := method; call_url := base +:+ path; call_json := kwargs |}]).
Proof.
  intros Hreg Hm. unfold forward_request. rewrite Hreg.
  now rewrite try_body_supported.
Qed.

(** C5, as the code has it: for a service name that is not registered no
    call is made, the exception raised is a 404 whose detail lists the
    registered names, and the response the client receives is a 404 with the
    four standard fields, the error and the message of that detail. *)
Theorem unregistered_service_not_forwarded (service path method : string)
    (kwargs : option json) (request_path : string) :
  assoc_get service SERVICES = None ->
  forward_request json_loads transport service path method kwargs
  = (Raise (HTTPException 404
              (JDict [("error", JStr "Service Not Found");
                      ("message",
                       JStr ("The requested service '" +:+ service +:+
                             "' is not available"));
                      ("available_services",
                       JList [JStr "student"; JStr "course"])])),
     [])
  /\ respond request_path
       (fst (forward_request json_loads transport service path method kwargs))
     = {| resp_status := 404;
          content :=
            JDict [("error", JStr "Service Not Found");
                   ("message",
                    JStr ("The requested service '" +:+ service +:+
                          "' is not available"));
                   ("status_code", JInt 404);
                   ("path", JStr request_path)] |}.
Proof.
  intros Hreg. unfold forward_request. rewrite Hreg. split; reflexivity.
Qed.

(** C6, as the code has it: for a registered service and a method other
    than the four, no call is made, the exception raised is a 405 whose
    detail lists the four methods, and the response the client receives is a
    405 with the four standard fields. *)
Theorem unsupported_method_not_forwarded (service base path method : string)
    (kwargs : option json) (request_path : string) :
  assoc_get service SERVICES = Some base ->
  supported_method method = false ->
  forward_request json_loads transport service path method kwargs
  = (Raise (HTTPException 405
              (JDict [("error", JStr "Method Not Allowed");
                      ("message",
                       JStr ("HTTP method '" +:+ method +:+ "' is not supported"));
                      ("allowed_methods",
                       JList [JStr "GET"; JStr "POST"; JStr "PUT"; JStr "DELETE"])])),
     [])
  /\ respond request_path
       (fst (forward_request json_loads transport service path method kwargs))
     = {| resp_status := 405;
          content :=
            JDict [("error", JStr "Method Not Allowed");
                   ("message",
                    JStr ("HTTP method '" +:+ method +:+ "' is not supported"));
                   ("status_code", JInt 405);
                   ("path", JStr request_path)] |}.
Proof.
  intros Hreg Hm. unfold forward_request. rewrite Hreg.
  rewrite try_body_unsupported by exact Hm. split; reflexivity.
Qed.

(** C1, as the code has it: when the backend call of a forwarded request
    raises, the exception raised to the client has status 504 for a
    timeout, 503 for a connection failure, 502 for any other request error
    and 500 for anything else; the handler keeps that status; the detail has
    a textual error and message; and the detail of the 503 carries the
    attempted address under [url]. *)
Theorem transport_failure_status (service base path method : string)
    (kwargs : option json) (e : exn) (request_path : string) :
  assoc_get service SERVICES = Some base ->
  supported_method method = true ->
  transport {| call_method := method; call_url := base +:+ path;
               call_json := kwargs |} = Raise e ->
  (forall s d, e <> HTTPException s d) ->
  exists (status : Z) (detail : list (string * json)),
    forward_request json_loads transport service path method kwargs
    = (Raise (HTTPException status (JDict detail)),
       [{| call_method := method; call_url := base +:+ path; call_json := kwargs |}])
    /\ status = match e with
                | HttpxTimeout _ => 504
                | HttpxConnectError _ => 503
                | HttpxRequestError _ => 502
                | _ => 500
                end
    /\ resp_status
         (respond request_path
            (fst (forward_request json_loads transport service path method kwargs)))
       = status
    /\ (exists err msg, assoc_get "error" detail = Some (JStr err)
                        /\ assoc_get "message" detail = Some (JStr msg))
    /\ (forall m, e = HttpxConnectError m ->
                  assoc_get "url" detail = Some (JStr (base +:+ path))).
Proof.
  intros Hreg Hm Hraise Hnot.
  rewrite (forward_request_supported service base path method kwargs Hreg Hm).
  rewrite Hraise. cbn [rbind try_except fst].
  destruct e as [s d | why | m | m | m | m | m | m | m | m | errs];
    try (now exfalso; apply (Hnot s d));
    cbn [except_clauses];
    eexists _, _; (split; [reflexivity|]);
    (split; [reflexivity|]); (split; [reflexivity|]);
    (split; [eexists _, _; split; reflexivity|]);
    intros m' Heq; try discriminate; reflexivity.
Qed.

(** The translation of a backend response below 400 whose parsed body can
    be rendered again: the status is kept and the content is the parsed
    body, the body wrapped under [raw] when it does not parse, and [null]
    when the body is empty. *)
Lemma forward_success (service base path method : string) (kwargs : option json)
    (response : Response) :
  assoc_get service SERVICES = Some base ->
  supported_method method = true ->
  transport {| call_method := method; call_url := base +:+ path;
               call_json := kwargs |} = Ok response ->
  status_code response < 400 ->
  (forall j, json_loads (text response) = Some j -> renderable j = true) ->
  fst (forward_request json_loads transport service path method kwargs)
  = Ok {| resp_status := status_code response;
          content :=
            if String.eqb (text response) "" then JNull
            else match json_loads (text response) with
                 | Some j => j
                 | None => JDict [("raw", JStr (text response))]
                 end |}.
Proof.
  intros Hreg Hm Hok Hlt Hrender.
  rewrite (forward_request_supported service base path method kwargs Hreg Hm).
  rewrite Hok. cbn [rbind fst]. unfold translate_response, new_JSONResponse.
  destruct (Z.leb_spec 400 (status_code response)); [lia|].
  destruct (String.eqb (text response) ""); [reflexivity|].
  destruct (json_loads (text response)) as [j|]; [|reflexivity].
  now rewrite (Hrender j eq_refl).
Qed.

(** A backend response below 400 whose parsed body holds a NaN or an
    infinity: the constructor of the response raises inside the [try], and
    the catch-all clause turns the outcome into a 500. *)
Lemma forward_unrenderable (service base path method : string)
    (kwargs : option json) (response : Response) (j : json) :
  assoc_get service SERVICES = Some base ->
  supported_method method = true ->
  transport {| call_method := method; call_url := base +:+ path;
               call_json := kwargs |} = Ok response ->
  status_code response < 400 ->
  text response <> "" ->
  json_loads (text response) = Some j ->
  renderable j = false ->
  fst (forward_request json_loads transport service path method kwargs)
  = Raise (HTTPException 500
             (JDict [("error", JStr "Internal Server Error");
                     ("message",
                      JStr "An unexpected error occurred while processing your request");
                     ("service", JStr service)])).
Proof.
  intros Hreg Hm Hok Hlt Htext Hbody Hnan.
  rewrite (forward_request_supported service base path method kwargs Hreg Hm).
  rewrite Hok. cbn [rbind fst]. unfold translate_response, new_JSONResponse.
  destruct (Z.leb_spec 400 (status_code response)); [lia|].
  destruct (String.eqb_spec (text response) ""); [congruence|].
  now rewrite Hbody, Hnan.
Qed.

(** The translation of a backend response from 400 on whose body is a JSON
    object or is not JSON: the status is kept and the detail carries error,
    message, service and path. *)
Lemma forward_backend_error (service base path method : string)
    (kwargs : option json) (response : Response) :
  assoc_get service SERVICES = Some base ->
  supported_method method = true ->
  transport {| call_method := method; call_url := base +:+ path;
               call_json := kwargs |} = Ok response ->
  400 <= status_code response ->
  (json_loads (text response) = None
   \/ exists kv, json_loads (text response) = Some (JDict kv)) ->
  fst (forward_request json_loads transport service path method kwargs)
  = Raise (HTTPException (status_code response)
             (JDict [("error",
                      JStr ("Service Error (" +:+ str_of_Z (status_code response)
                            +:+ ")"));
                     ("message",
                      match json_loads (text response) with
                      | Some (JDict kv) =>
                          assoc_get_default "detail"
                            (JStr "An error occurred in the microservice") kv
                      | _ =>
                          JStr (if String.eqb (text response) "" then "Unknown error"
                                else text response)
                      end);
                     ("service", JStr service);
                     ("path", JStr path)])).
Proof.
  intros Hreg Hm Hok Hge Hbody.
  rewrite (forward_request_supported service base path method kwargs Hreg Hm).
  rewrite Hok. cbn [rbind fst]. unfold translate_response.
  destruct (Z.leb_spec 400 (status_code response)); [|lia].
  destruct Hbody as [-> | [kv ->]]; reflexivity.
Qed.

(** C7, at the inputs on which the code departs from it: a backend response
    from 400 on whose body parses to JSON that is not an object makes the
    lookup of [detail] fail inside the [try], and the catch-all clause turns
    the outcome into a 500 that no longer carries the backend's status. *)
Theorem non_object_error_body_masked (service base path method : string)
    (kwargs : option json) (response : Response) (j : json) :
  assoc_get service SERVICES = Some base ->
  supported_method method = true ->
  transport {| call_method := method; call_url := base +:+ path;
               call_json := kwargs |} = Ok response ->
  400 <= status_code response ->
  json_loads (text response) = Some j ->
  is_dict j = false ->
  fst (forward_request json_loads transport service path method kwargs)
  = Raise (HTTPException 500
             (JDict [("error", JStr "Internal Server Error");
                     ("message",
                      JStr "An unexpected error occurred while processing your request");
                     ("service", JStr service)])).
Proof.
  intros Hreg Hm Hok Hge Hbody Hnot.
  rewrite (forward_request_supported service base path method kwargs Hreg Hm).
  rewrite Hok. cbn [rbind fst]. unfold translate_response.
  destruct (Z.leb_spec 400 (status_code response)); [|lia].
  rewrite Hbody. destruct j; try discriminate; reflexivity.
Qed.

(** A value inside a dictionary that can be rendered can be rendered. *)
Lemma renderable_lookup (kv : list (string * json)) (k : string) (v : json) :
  renderable (JDict kv) = true -> assoc_get k kv = Some v -> renderable v = true.
Proof.
  induction kv as [|[k' v'] rest IH]; cbn [assoc_get]; [discriminate|].
  intros Hr. change (renderable v' && renderable (JDict rest) = true) in Hr.
  apply andb_prop in Hr as [Hv' Hrest].
  destruct (String.eqb k k'); [now intros [= <-] | now apply IH].
Qed.

(** The response of the handler of [HTTPException] to a detail that is a
    dictionary with an error and a message. *)
Lemma failure_response_http (request_path : string) (status : Z)
    (kv : list (string * json)) (err : string) (msg : json) :
  assoc_get "error" kv = Some (JStr err) ->
  assoc_get "message" kv = Some msg ->
  renderable msg = true ->
  failure_response request_path (HTTPException status (JDict kv))
  = {| resp_status := status;
       content := JDict [("error", JStr err); ("message", msg);
                         ("status_code", JInt status);
                         ("path", JStr request_path)] |}.
Proof.
  intros Herr Hmsg Hr.
  unfold failure_response, http_exception_handler, new_JSONResponse,
    assoc_get_default.
  rewrite Herr, Hmsg.
  change (renderable (JDict [("error", JStr err); ("message", msg);
                             ("status_code", JInt status);
                             ("path", JStr request_path)]))
    with (true && (renderable msg && (true && (true && true)))).
  now rewrite Hr.
Qed.

(** The response to an exception whose error and message are text comes
    from the handler of its class and has the four fields, error and message
    strings, status_code an integer and path a string. *)
Lemma textual_failure_shape (request_path : string) (e : exn) :
  textual_detail e = true ->
  error_body_shape (content (failure_response request_path e)) = true.
Proof.
  destruct e as [s d | | | | | | | | | |]; try reflexivity; try discriminate.
  destruct d as [| | | msg | | kv |]; try discriminate; [reflexivity|].
  cbn [textual_detail]. unfold failure_response, http_exception_handler,
    new_JSONResponse, assoc_get_default.
  destruct (assoc_get "error" kv) as [[| | | err | | |]|];
    destruct (assoc_get "message" kv) as [[| | | msg | | |]|];
    try discriminate; reflexivity.
Qed.

(** Every response the gateway's two handlers build has exactly the four
    fields, with the status of the response under [status_code] and the
    request path under [path]: the handler of [HTTPException] builds them
    from the detail, and the handler of [Exception] answers for every other
    exception and for an [HTTPException] whose body cannot be rendered. *)
Lemma handler_body_four_fields (request_path : string) (e : exn) :
  (forall errors, e <> RequestValidationError errors) ->
  exists err msg,
    content (failure_response request_path e)
    = JDict [("error", err); ("message", msg);
             ("status_code", JInt (resp_status (failure_response request_path e)));
             ("path", JStr request_path)].
Proof.
  intros Hnot. destruct e as [s d | | | | | | | | | | errors];
    try (eexists _, _; reflexivity).
  - unfold failure_response, http_exception_handler, new_JSONResponse.
    match goal with
    | |- context [if ?b then _ else _] => destruct b
    end; eexists _, _; reflexivity.
  - now destruct (Hnot errors).
Qed.

End ForwarderProperties.

(* ===================================================================== *)
(** ** Properties of the login endpoint *)
(* ===================================================================== *)

Section LoginProperties.

Import Gateway Spec.

Variable bcrypt : Auth.CryptContext.
Variable SECRET_KEY : string.
Variable hs256 : string -> list (string * json) -> string.

(** The only [HTTPException] of [login] is textual; an exception of the
    password context is none and gets the general handler. *)
Lemma login_failure_textual (st : Auth.auth_state)
    (name password : string) (utcnow : Z) (e : exn) :
  fst (login bcrypt SECRET_KEY hs256 st name password utcnow) = Raise e ->
  textual_detail e = true.
Proof.
  unfold login.
  destruct (Auth.authenticate_user bcrypt st name password) as [[[p|]|e0] st1] eqn:Hauth;
    cbn [fst]; try discriminate.
  - now intros [= <-].
  - intros [= <-]. revert Hauth. unfold Auth.authenticate_user.
    destruct (Auth.USERS_DB _ !! name) as [u|]; [|discriminate].
    destruct (String.eqb _ password); [discriminate|].
    unfold Auth.verify_password.
    destruct (Auth.get_pwd_context bcrypt _) as [ctx st2].
    destruct (Auth.ctx_verify ctx password _) as [[|]|]; try discriminate.
    now intros [= <- _].
Qed.

(** A login that succeeds hands out a token that verifies, until it
    expires, to the principal the login returned. *)
Lemma login_then_verify (st st' : Auth.auth_state)
    (name password : string) (utcnow now : Z) (t : Auth.token) (p : Auth.principal) :
  registry_keyed st ->
  login bcrypt SECRET_KEY hs256 st name password utcnow = (Ok (t, p), st') ->
  now <= utcnow + 1800 ->
  Auth.get_current_user SECRET_KEY hs256 st' t now = Ok p.
Proof.
  intros Hkeyed Hlogin Hnow. unfold login in Hlogin.
  pose proof (authenticate_user_principal bcrypt st name password) as Hprin.
  pose proof (authenticate_user_keyed bcrypt st name password Hkeyed) as Hkeyed'.
  destruct (Auth.authenticate_user bcrypt st name password) as [[[q|]|e0] st1];
    try discriminate.
  injection Hlogin as <- <- <-.
  destruct (Hprin q eq_refl) as (u & Hu & ->). cbn [snd] in Hu, Hkeyed'.
  pose proof (Hkeyed' name u Hu) as Hname.
  unfold Auth.principal_of. cbn [Auth.p_username Auth.p_role]. rewrite Hname.
  apply issued_token_verifies; [exact Hu | exact Hname |].
  unfold Auth.expire_at, Auth.ACCESS_TOKEN_EXPIRE_MINUTES. simpl. lia.
Qed.

(** Before the first login attempt no token is accepted, not even one the
    gateway would issue for a registered user; after any login attempt,
    successful or not, such a token is accepted until it expires. *)
Lemma token_accepted_after_first_login (name password : string)
    (expires_delta : option Z) (issued now : Z) :
  now <= Auth.expire_at expires_delta issued ->
  Auth.get_current_user SECRET_KEY hs256 Auth.initial_state
    (Auth.create_access_token SECRET_KEY hs256
       [("sub", JStr "admin"); ("role", JStr "admin")] expires_delta issued) now
  = Raise Auth.credentials_exception
  /\ Auth.get_current_user SECRET_KEY hs256
       (snd (Auth.authenticate_user bcrypt Auth.initial_state name password))
       (Auth.create_access_token SECRET_KEY hs256
          [("sub", JStr "admin"); ("role", JStr "admin")] expires_delta issued) now
     = Ok {| Auth.p_username := "admin"; Auth.p_role := "admin" |}.
Proof.
  intros Hnow. split.
  - rewrite (get_current_user_decoded SECRET_KEY hs256 Auth.initial_state _ now _
               "admin"
               (issued_token_decodes SECRET_KEY hs256 "admin" "admin" expires_delta
                  issued now Hnow)
               eq_refl).
    unfold Auth.initial_state. cbn [Auth.USERS_DB]. now rewrite lookup_empty.
  - destruct (authenticate_user_registry bcrypt Auth.initial_state name password)
      as [Hdb _].
    destruct (init_users_db_fresh bcrypt Auth.initial_state eq_refl) as [_ Hinit].
    rewrite Hinit in Hdb. cbn [Auth._pwd_context Auth.initial_state] in Hdb.
    assert (Hadmin : exists h,
               Auth.USERS_DB (snd (Auth.authenticate_user bcrypt Auth.initial_state
                                     name password)) !! "admin"
               = Some {| Auth.username := "admin"; Auth.hashed_password := h;
                         Auth.role := "admin" |}).
    { rewrite Hdb.
      destruct (Auth.ctx_hash bcrypt "admin123") as [h1|];
        [destruct (Auth.ctx_hash bcrypt "user123") as [h2|]|];
        eexists; rewrite hashed_users_lookup; reflexivity. }
    destruct Hadmin as [h Hadmin].
    now apply (issued_token_verifies SECRET_KEY hs256 _ "admin" _ expires_delta issued now
                 Hadmin).
Qed.

End LoginProperties.

(* ===================================================================== *)
(** ** Properties of the logging middleware *)
(* ===================================================================== *)

Section MiddlewareProperties.

Import Middleware.

Variable Resp : Type.
Variable status_code_of : Resp -> Z.

(** C9: what [dispatch] returns or raises is what the rest of the pipeline
    returned or raised for the same request: the same response object, hence
    the same body and status code, or the same exception. *)
Theorem dispatch_transparent (request : Request)
    (call_next : Request -> list log_record -> result Resp * list log_record)
    (start_time end_time : Z) (log : list log_record) :
  fst (dispatch Resp status_code_of request call_next start_time end_time log)
  = fst (call_next request
           (log ++ [LogRequest (req_method request) (req_path request)
                      (match req_client request with
                       | Some host => host
                       | None => "unknown"
                       end)
                      (req_query_params request)])%list).
Proof.
  unfold dispatch.
  destruct (call_next request _) as [[response | e] log2]; reflexivity.
Qed.

(** The middleware only appends to the log: one record before the pipeline
    runs and one after. *)
Lemma dispatch_log (request : Request)
    (call_next : Request -> list log_record -> result Resp * list log_record)
    (start_time end_time : Z) (log : list log_record) :
  exists entry,
    snd (dispatch Resp status_code_of request call_next start_time end_time log)
    = (snd (call_next request
              (log ++ [LogRequest (req_method request) (req_path request)
                         (match req_client request with
                          | Some host => host
                          | None => "unknown"
                          end)
                         (req_query_params request)])%list)
       ++ [entry])%list.
Proof.
  unfold dispatch.
  destruct (call_next request _) as [[response | e] log2]; eexists; reflexivity.
Qed.

End MiddlewareProperties.


(* ===================================================================== *)
(** ** The properties at concrete inputs *)
(* ===================================================================== *)

Section ConcreteInputs.

Import Auth Gateway Spec Samples.

(** The administrator's token, issued at 1000, verified at 1000 against the
    initialised registry. *)
Lemma token_roundtrip_witness :
  USERS_DB ready_state !! "admin"
  = Some {| username := "admin"; hashed_password := "$2b$admin123"; role := "admin" |}
  /\ 1000 <= expire_at (Some 1800) 1000
  /\ get_current_user secret sample_hs256 ready_state admin_token 1000
     = Ok {| p_username := "admin"; p_role := "admin" |}.
Proof.
  assert (Hu : USERS_DB ready_state !! "admin"
               = Some {| username := "admin"; hashed_password := "$2b$admin123";
                         role := "admin" |}) by (vm_compute; reflexivity).
  assert (Hnow : 1000 <= expire_at (Some 1800) 1000) by (vm_compute; discriminate).
  split; [exact Hu|]. split; [exact Hnow|].
  exact (token_roundtrip secret sample_hs256 ready_state "admin" _ (Some 1800)
           1000 1000 Hu eq_refl Hnow).
Defined.

(** With the sample context the stored hash of the administrator is
    ["$2b$admin123"], which is not the password and is accepted as one. *)
Lemma stored_hash_authenticates_witness :
  ctx_hash working_ctx "admin123" = Some "$2b$admin123"
  /\ "$2b$admin123" <> "admin123"
  /\ fst (authenticate_user working_ctx initial_state "admin" "$2b$admin123")
     = Ok (Some {| p_username := "admin"; p_role := "admin" |}).
Proof.
  split; [reflexivity|]. split; [discriminate|].
  exact (stored_hash_authenticates working_ctx "$2b$admin123" "$2b$user123"
           eq_refl eq_refl).
Defined.

(** A string that does not parse and a token with a foreign signature. *)
Lemma invalid_tokens_indistinguishable_witness :
  invalid_token secret sample_hs256 5000 garbage_token
  /\ invalid_token secret sample_hs256 5000 forged_token
  /\ get_current_user secret sample_hs256 ready_state forged_token 5000
     = get_current_user secret sample_hs256 ready_state garbage_token 5000.
Proof.
  assert (H1 : invalid_token secret sample_hs256 5000 garbage_token)
    by apply invalid_malformed.
  assert (H2 : invalid_token secret sample_hs256 5000 forged_token)
    by (apply invalid_signature; vm_compute; discriminate).
  split; [exact H1|]. split; [exact H2|].
  exact (proj1 (proj2 (invalid_tokens_indistinguishable secret sample_hs256
                         ready_state garbage_token forged_token 5000
                         "/gateway/auth/me" H1 H2))).
Defined.

(** The administrator's token after its expiry is the third kind of invalid
    token, and is answered like the unparseable one. *)
Lemma expired_token_indistinguishable :
  invalid_token secret sample_hs256 5000 admin_token
  /\ get_current_user secret sample_hs256 ready_state admin_token 5000
     = get_current_user secret sample_hs256 ready_state garbage_token 5000.
Proof.
  assert (H : invalid_token secret sample_hs256 5000 admin_token).
  { apply (invalid_expired secret sample_hs256 5000 "HS256"
             [("sub", JStr "admin"); ("role", JStr "admin"); ("exp", JInt 2800)]
             (JInt 2800) 2800); reflexivity. }
  split; [exact H|].
  rewrite (get_current_user_invalid secret sample_hs256 ready_state _ 5000 H).
  reflexivity.
Qed.

(** A token signed with the gateway's key whose claims are
    [{"sub": "admin", "exp": null}], against a string that is no token. *)
Lemma null_expiry_token_answered_500_witness :
  get_current_user secret sample_hs256 ready_state null_expiry_token 1000
  = Raise (TypeError "int() argument must be a string or a real number")
  /\ failure_response "/gateway/auth/me"
       (TypeError "int() argument must be a string or a real number")
     = general_exception_handler "/gateway/auth/me"
  /\ get_current_user secret sample_hs256 ready_state garbage_token 1000
     = Raise (HTTPException 401 (JStr "Could not validate credentials"))
  /\ resp_status
       (failure_response "/gateway/auth/me"
          (HTTPException 401 (JStr "Could not validate credentials")))
     = 401.
Proof.
  exact (null_expiry_token_answered_500 secret sample_hs256 ready_state
           [("sub", JStr "admin"); ("exp", JNull)] "not-a-token" 1000
           "/gateway/auth/me" eq_refl eq_refl eq_refl).
Defined.


(** A request for a service named [inventory]. *)
Lemma unregistered_service_not_forwarded_witness :
  assoc_get "inventory" SERVICES = None
  /\ snd (forward_request sample_json_loads refusing_backend
            "inventory" "/api/items" "GET" None) = []
  /\ resp_status
       (respond "/gateway/inventory"
          (fst (forward_request sample_json_loads refusing_backend
                  "inventory" "/api/items" "GET" None))) = 404.
Proof.
  split; [reflexivity|].
  destruct (unregistered_service_not_forwarded sample_json_loads refusing_backend
              "inventory" "/api/items" "GET" None "/gateway/inventory" eq_refl)
    as [Hout Hresp].
  split; [now rewrite Hout | now rewrite Hresp].
Defined.

(** C5 fails as stated: the body the client receives for [inventory] has
    the four standard fields only; neither the key [available_services] nor
    the name of any registered service occurs in it. *)
Lemma unregistered_service_body_lacks_names :
  respond "/gateway/inventory"
    (fst (forward_request sample_json_loads refusing_backend
            "inventory" "/api/items" "GET" None))
  = {| resp_status := 404;
       content :=
         JDict [("error", JStr "Service Not Found");
                ("message", JStr "The requested service 'inventory' is not available");
                ("status_code", JInt 404);
                ("path", JStr "/gateway/inventory")] |}
  /\ mentions "available_services"
       (content (respond "/gateway/inventory"
                   (fst (forward_request sample_json_loads refusing_backend
                           "inventory" "/api/items" "GET" None)))) = false
  /\ mentions "student"
       (content (respond "/gateway/inventory"
                   (fst (forward_request sample_json_loads refusing_backend
                           "inventory" "/api/items" "GET" None)))) = false
  /\ mentions "course"
       (content (respond "/gateway/inventory"
                   (fst (forward_request sample_json_loads refusing_backend
                           "inventory" "/api/items" "GET" None)))) = false.
Proof. repeat split; vm_compute; reflexivity. Qed.

(** A PATCH for the course service. *)
Lemma unsupported_method_not_forwarded_witness :
  assoc_get "course" SERVICES = Some "http://localhost:8002"
  /\ supported_method "PATCH" = false
  /\ snd (forward_request sample_json_loads refusing_backend
            "course" "/api/courses/1" "PATCH" None) = []
  /\ resp_status
       (respond "/gateway/courses/1"
          (fst (forward_request sample_json_loads refusing_backend
                  "course" "/api/courses/1" "PATCH" None))) = 405.
Proof.
  split; [reflexivity|]. split; [reflexivity|].
  destruct (unsupported_method_not_forwarded sample_json_loads refusing_backend
              "course" "http://localhost:8002" "/api/courses/1" "PATCH" None
              "/gateway/courses/1" eq_refl eq_refl)
    as [Hout Hresp].
  split; [now rewrite Hout | now rewrite Hresp].
Defined.

(** C6 fails as stated, twice: the body the client receives for a PATCH has
    the four standard fields only, with none of the allowed methods in it;
    and a PATCH for a service that is not registered is answered 404, the
    registry being checked first. *)
Lemma unsupported_method_body_lacks_methods :
  respond "/gateway/courses/1"
    (fst (forward_request sample_json_loads refusing_backend
            "course" "/api/courses/1" "PATCH" None))
  = {| resp_status := 405;
       content :=
         JDict [("error", JStr "Method Not Allowed");
                ("message", JStr "HTTP method 'PATCH' is not supported");
                ("status_code", JInt 405);
                ("path", JStr "/gateway/courses/1")] |}
  /\ existsb
       (fun m => mentions m
                   (content (respond "/gateway/courses/1"
                               (fst (forward_request sample_json_loads refusing_backend
                                       "course" "/api/courses/1" "PATCH" None)))))
       ["GET"; "POST"; "PUT"; "DELETE"; "allowed_methods"] = false
  /\ resp_status
       (respond "/gateway/inventory"
          (fst (forward_request sample_json_loads refusing_backend
                  "inventory" "/api/items" "PATCH" None))) = 404.
Proof. repeat split; vm_compute; reflexivity. Qed.

(** A GET for the course service whose connection is refused. *)
Lemma transport_failure_status_witness :
  assoc_get "course" SERVICES = Some "http://localhost:8002"
  /\ supported_method "GET" = true
  /\ refusing_backend (client_get "http://localhost:8002/api/courses" None)
     = Raise (HttpxConnectError "All connection attempts failed")
  /\ resp_status
       (respond "/gateway/courses"
          (fst (forward_request sample_json_loads refusing_backend
                  "course" "/api/courses" "GET" None))) = 503.
Proof.
  split; [reflexivity|]. split; [reflexivity|]. split; [reflexivity|].
  destruct (transport_failure_status sample_json_loads refusing_backend
              "course" "http://localhost:8002" "/api/courses" "GET" None
              (HttpxConnectError "All connection attempts failed")
              "/gateway/courses" eq_refl eq_refl eq_refl
              ltac:(intros s d; discriminate))
    as (status & detail & _ & Hstatus & Hresp & _).
  rewrite Hresp. exact Hstatus.
Defined.

(** C1 fails as stated: the message of the 503 names the service and not
    the address; the address is the [url] entry of the exception's detail,
    and nothing in the body the client receives includes it. *)
Lemma connect_failure_message_lacks_address :
  fst (forward_request sample_json_loads refusing_backend
         "course" "/api/courses" "GET" None)
  = Raise (HTTPException 503
             (JDict [("error", JStr "Service Unavailable");
                     ("message",
                      JStr "Unable to connect to course service. Please check if the service is running.");
                     ("service", JStr "course");
                     ("url", JStr "http://localhost:8002/api/courses")]))
  /\ includes
       "Unable to connect to course service. Please check if the service is running."
       "http://localhost:8002/api/courses" = false
  /\ mentions "http://localhost:8002/api/courses"
       (content (respond "/gateway/courses"
                   (fst (forward_request sample_json_loads refusing_backend
                           "course" "/api/courses" "GET" None)))) = false.
Proof. repeat split; vm_compute; reflexivity. Qed.

(** A 404 of the course service whose body is the JSON array [[1, 2]]. *)
Lemma non_object_error_body_masked_witness :
  array_404_backend (client_get "http://localhost:8002/api/courses/9" None)
  = Ok {| status_code := 404; text := "[1, 2]" |}
  /\ sample_json_loads "[1, 2]" = Some (JList [JInt 1; JInt 2])
  /\ fst (forward_request sample_json_loads array_404_backend
            "course" "/api/courses/9" "GET" None)
     = Raise (HTTPException 500
                (JDict [("error", JStr "Internal Server Error");
                        ("message",
                         JStr "An unexpected error occurred while processing your request");
                        ("service", JStr "course")])).
Proof.
  split; [reflexivity|]. split; [reflexivity|].
  apply (non_object_error_body_masked sample_json_loads array_404_backend
           "course" "http://localhost:8002" "/api/courses/9" "GET" None
           {| status_code := 404; text := "[1, 2]" |} (JList [JInt 1; JInt 2]));
    try reflexivity.
  cbn [status_code]. lia.
Defined.

End ConcreteInputs.

(* ===================================================================== *)
(** ** Properties of the course service *)
(* ===================================================================== *)

Section CourseStoreProperties.

Import CourseService.models CourseService.data_service.

Lemma get_course_by_id_Some (self : CourseMockDataService) (course_id : Z)
    (c : Course) :
  get_course_by_id self course_id = Some c ->
  In c (courses self) /\ id c = course_id.
Proof.
  unfold get_course_by_id. intros H. apply find_some in H as [Hin Hid].
  split; [exact Hin | lia].
Qed.

Lemma get_course_by_id_None (self : CourseMockDataService) (course_id : Z) :
  get_course_by_id self course_id = None <->
  ~ In course_id (map id (courses self)).
Proof.
  unfold get_course_by_id. induction (courses self) as [|c rest IH]; simpl.
  - tauto.
  - destruct (Z.eqb_spec (id c) course_id) as [Heq | Hne].
    + split; [discriminate | intros H; exfalso; apply H; now left].
    + rewrite IH. intuition.
Qed.

Lemma mutate_first_ids (course_id : Z) (f : Course -> Course) (l : list Course) :
  (forall c, id (f c) = id c) ->
  map id (mutate_first course_id f l) = map id l.
Proof.
  intros Hf. induction l as [|c rest IH]; simpl; [reflexivity|].
  destruct (id c =? course_id)%Z; simpl; [now rewrite Hf | now rewrite IH].
Qed.

Lemma mutate_first_In (course_id : Z) (f : Course -> Course) (l : list Course)
    (c : Course) :
  In c (mutate_first course_id f l) -> In c l \/ exists c0, In c0 l /\ c = f c0.
Proof.
  induction l as [|c1 rest IH]; simpl; [tauto|].
  destruct (id c1 =? course_id)%Z; simpl.
  - intros [<- | Hin]; [right; exists c1; auto | left; auto].
  - intros [<- | Hin]; [left; auto|].
    destruct (IH Hin) as [H | (c0 & H0 & ->)]; [left; auto | right; exists c0; auto].
Qed.

(** Removing by equality removes the first course with the id of the
    removed one, when no earlier course shares that id. *)
Lemma list_remove_found (l : list Course) (course_id : Z) (c : Course) :
  List.find (fun c => (id c =? course_id)%Z) l = Some c ->
  exists before after,
    l = (before ++ c :: after)%list
    /\ list_remove c l = (before ++ after)%list
    /\ Forall (fun c0 => id c0 <> course_id) before.
Proof.
  induction l as [|c1 rest IH]; simpl; [discriminate|].
  destruct (Z.eqb_spec (id c1) course_id) as [Heq | Hne].
  - intros [= ->]. exists [], rest. destruct (decide (c = c)); [|congruence].
    repeat split. apply Forall_nil_2.
  - intros Hfind. destruct (IH Hfind) as (before & after & -> & Hrem & Hall).
    exists (c1 :: before), after.
    destruct (decide (c1 = c)) as [-> | _].
    + apply find_some in Hfind as [_ Hid]. lia.
    + simpl. rewrite Hrem. repeat split. now apply Forall_cons.
Qed.

Lemma find_app_skip (l1 l2 : list Course) (course_id : Z) :
  Forall (fun c0 => id c0 <> course_id) l1 ->
  List.find (fun c => (id c =? course_id)%Z) (l1 ++ l2)
  = List.find (fun c => (id c =? course_id)%Z) l2.
Proof.
  induction 1 as [|c rest Hc _ IH]; simpl; [reflexivity|].
  destruct (Z.eqb_spec (id c) course_id); [congruence | exact IH].
Qed.

Lemma find_not_in (l : list Course) (course_id : Z) :
  ~ In course_id (map id l) ->
  List.find (fun c => (id c =? course_id)%Z) l = None.
Proof.
  intros H. apply (proj2 (get_course_by_id_None {| courses := l; next_id := 0 |}
                            course_id) H).
Qed.

Lemma well_formed_init : well_formed __init__.
Proof.
  split; cbn.
  - repeat (apply NoDup_cons_2;
            [rewrite list_elem_of_In; cbn; intuition discriminate|]).
    apply NoDup_nil_2.
  - repeat (apply Forall_cons; split; [cbn; lia|]). apply Forall_nil_2.
Qed.

Lemma well_formed_add (self : CourseMockDataService) (d : CourseCreate) :
  well_formed self -> well_formed (snd (add_course self d)).
Proof.
  intros [Hnodup Hlt]. split; cbn.
  - rewrite map_app. cbn. apply NoDup_app. repeat split.
    + exact Hnodup.
    + intros x Hx Hy. apply list_elem_of_In in Hx, Hy. destruct Hy as [<- | []].
      apply in_map_iff in Hx as (c & Hid & Hin).
      rewrite List.Forall_forall in Hlt. specialize (Hlt c Hin). lia.
    + apply NoDup_cons_2; [rewrite list_elem_of_In; intros []|apply NoDup_nil_2].
  - apply Forall_app. split.
    + eapply List.Forall_impl; [|exact Hlt]. cbn. intros c Hc. lia.
    + apply Forall_cons. split; [cbn; lia | apply Forall_nil_2].
Qed.

Lemma well_formed_update (self : CourseMockDataService) (course_id : Z)
    (d : CourseUpdate) :
  well_formed self -> well_formed (snd (update_course self course_id d)).
Proof.
  intros [Hnodup Hlt]. unfold update_course.
  destruct (get_course_by_id self course_id); [|now split].
  split; cbn.
  - now rewrite mutate_first_ids.
  - rewrite List.Forall_forall in *. intros c1 Hin.
    apply mutate_first_In in Hin as [Hin | (c0 & Hin & ->)]; cbn; auto.
Qed.

Lemma well_formed_delete (self : CourseMockDataService) (course_id : Z) :
  well_formed self -> well_formed (snd (delete_course self course_id)).
Proof.
  intros [Hnodup Hlt]. unfold delete_course.
  destruct (get_course_by_id self course_id) as [c|] eqn:Hget; [|now split].
  destruct (list_remove_found _ _ _ Hget) as (before & after & Hl & Hrem & _).
  split; cbn; rewrite Hrem; rewrite Hl in *.
  - rewrite map_app in *. cbn in Hnodup.
    apply NoDup_app in Hnodup as (H1 & H2 & H3).
    apply NoDup_cons in H3 as [_ H3].
    apply NoDup_app. repeat split; auto.
    intros x Hx Hy. apply (H2 x Hx). now apply list_elem_of_further.
  - apply Forall_app in Hlt as [H1 H2]. apply Forall_app. split; auto.
    now apply Forall_cons in H2 as [_ H2].
Qed.

End CourseStoreProperties.

Section CourseEndpointProperties.

Import CourseService.models CourseService.data_service CourseService.service
  CourseService.main.

Lemma handle_well_formed (svc : CourseService) (r : request) :
  well_formed (data_service svc) ->
  well_formed (data_service (snd (handle svc r))).
Proof.
  intros Hwf. destruct r as [| cid | d | cid d | cid]; cbn.
  - exact Hwf.
  - unfold get_course. now destruct (get_by_id svc cid).
  - now apply well_formed_add.
  - unfold update_course, update.
    pose proof (well_formed_update _ cid d Hwf) as H.
    destruct (CourseService.data_service.update_course (data_service svc) cid d) as [[c|] ds];
      exact H.
  - unfold delete_course, delete.
    pose proof (well_formed_delete _ cid Hwf) as H.
    destruct (CourseService.data_service.delete_course (data_service svc) cid) as [[|] ds];
      exact H.
Qed.

Lemma handle_next_id (svc : CourseService) (r : request) :
  next_id (data_service svc) <= next_id (data_service (snd (handle svc r))).
Proof.
  destruct r as [| cid | d | cid d | cid]; cbn; try lia.
  - unfold get_course. destruct (get_by_id svc cid); cbn; lia.
  - unfold update_course, update, CourseService.data_service.update_course.
    destruct (get_course_by_id (data_service svc) cid); cbn; lia.
  - unfold delete_course, delete, CourseService.data_service.delete_course.
    destruct (get_course_by_id (data_service svc) cid); cbn; lia.
Qed.

Lemma run_next_id (rs : list request) (svc : CourseService) :
  next_id (data_service svc) <= next_id (data_service (run svc rs)).
Proof.
  revert svc. induction rs as [|r rs IH]; intros svc; cbn; [lia|].
  unfold run in IH. specialize (IH (snd (handle svc r))).
  pose proof (handle_next_id svc r). lia.
Qed.

(** X1: whatever requests the course service has served since it started, the
    ids in its list are pairwise different and below the next id. *)
Theorem course_ids_unique_after_any_requests (rs : list request) :
  well_formed (data_service (run course_service rs)).
Proof.
  assert (H : forall svc, well_formed (data_service svc) ->
                          well_formed (data_service (run svc rs))).
  { induction rs as [|r rs IH]; intros svc Hwf; cbn; [exact Hwf|].
    apply IH. now apply handle_well_formed. }
  apply H, well_formed_init.
Qed.

(** X2: a created course is answered with 201, gets the next id, and is what a
    GET of that id returns afterwards. *)
Theorem created_course_is_retrievable (svc : CourseService) (d : CourseCreate) :
  well_formed (data_service svc) ->
  exists c,
    fst (create_course svc d) = Ok (OneCourse 201 c)
    /\ id c = next_id (data_service svc)
    /\ fst (get_course (snd (create_course svc d)) (id c)) = Ok (OneCourse 200 c).
Proof.
  intros [_ Hlt]. eexists. split; [reflexivity|]. split; [reflexivity|].
  cbn. unfold get_course, get_by_id, get_course_by_id. cbn.
  rewrite find_app_skip.
  - cbn. now rewrite Z.eqb_refl.
  - eapply List.Forall_impl; [|exact Hlt]. cbn. intros c Hc. lia.
Qed.

(** X3: an id is never handed out twice: a course created after any further
    requests, deletions included, gets an id above every id that was ever in
    the list before. *)
Theorem course_ids_never_reused (svc : CourseService) (rs : list request)
    (d : CourseCreate) (c0 : Course) :
  well_formed (data_service svc) ->
  In c0 (get_all svc) ->
  id c0 < id (fst (create (run svc rs) d)).
Proof.
  intros [_ Hlt] Hin. cbn.
  rewrite List.Forall_forall in Hlt. specialize (Hlt c0 Hin).
  pose proof (run_next_id rs svc). lia.
Qed.

(** X4: after a DELETE of an id, found or not, a GET of it is answered 404 and
    a further DELETE is answered 404 and changes nothing. *)
Theorem deleted_course_is_gone (svc : CourseService) (course_id : Z) :
  well_formed (data_service svc) ->
  fst (get_course (snd (delete_course svc course_id)) course_id) = Raise not_found
  /\ delete_course (snd (delete_course svc course_id)) course_id
     = (Raise not_found, snd (delete_course svc course_id)).
Proof.
  intros [Hnodup _].
  assert (Hgone : get_course_by_id
                    (data_service (snd (delete_course svc course_id))) course_id
                  = None).
  { unfold delete_course, delete, CourseService.data_service.delete_course.
    destruct (get_course_by_id (data_service svc) course_id) as [c|] eqn:Hget;
      cbn; [|exact Hget].
    destruct (list_remove_found _ _ _ Hget) as (before & after & Hl & Hrem & Hb).
    unfold get_course_by_id. cbn. rewrite Hrem.
    apply find_not_in. rewrite Hl, map_app in Hnodup. cbn in Hnodup.
    apply NoDup_app in Hnodup as (_ & H2 & H3).
    apply NoDup_cons in H3 as [H3 _].
    apply find_some in Hget as [_ Hid]. apply Z.eqb_eq in Hid.
    rewrite map_app, in_app_iff. intros [Hin | Hin].
    - apply (H2 course_id); [now apply list_elem_of_In|].
      rewrite <- Hid. apply list_elem_of_here.
    - apply H3. rewrite Hid. now apply list_elem_of_In. }
  revert Hgone. generalize (snd (delete_course svc course_id)).
  intros [ds] Hgone. cbn in Hgone. split.
  - unfold get_course, get_by_id. cbn. now rewrite Hgone.
  - unfold delete_course, delete, CourseService.data_service.delete_course. cbn.
    now rewrite Hgone.
Qed.

(** X5: a DELETE removes the course with that id and nothing else: the list
    afterwards is the list before without the courses of that id, in the
    same order. *)
Theorem delete_removes_exactly_that_id (svc : CourseService) (course_id : Z) :
  well_formed (data_service svc) ->
  get_all (snd (delete_course svc course_id))
  = List.filter (fun c => negb (id c =? course_id)%Z) (get_all svc).
Proof.
  intros [Hnodup _].
  assert (Hkeep : forall l : list Course,
             ~ In course_id (map id l) ->
             List.filter (fun c => negb (id c =? course_id)%Z) l = l).
  { induction l as [|c rest IH]; cbn; [reflexivity|]. intros Hn.
    destruct (Z.eqb_spec (id c) course_id) as [Heq | Hne]; cbn.
    - exfalso. apply Hn. now left.
    - rewrite IH; [reflexivity|]. intros Hin. apply Hn. now right. }
  unfold delete_course, delete, CourseService.data_service.delete_course, get_all,
    CourseService.data_service.get_all_courses.
  destruct svc as [[l n]]. cbn [data_service courses] in *.
  destruct (get_course_by_id {| courses := l; next_id := n |} course_id)
    as [c|] eqn:Hget; cbn [fst snd data_service courses].
  - destruct (list_remove_found _ _ _ Hget) as (before & after & Hl & Hrem & Hb).
    cbn [courses] in Hl, Hrem. rewrite Hrem, Hl, List.filter_app. cbn [List.filter].
    apply find_some in Hget as [_ Hid]. rewrite Hid. cbn.
    rewrite Hl, map_app in Hnodup. cbn in Hnodup.
    apply NoDup_app in Hnodup as (_ & H2 & H3).
    apply NoDup_cons in H3 as [H3 _]. apply Z.eqb_eq in Hid.
    rewrite !Hkeep; [reflexivity | |].
    + intros Hin. apply H3. rewrite Hid. now apply list_elem_of_In.
    + intros Hin. apply (H2 course_id); [now apply list_elem_of_In|].
      rewrite <- Hid. apply list_elem_of_here.
  - symmetry. apply Hkeep.
    exact (proj1 (get_course_by_id_None {| courses := l; next_id := n |} course_id)
             Hget).
Qed.

(** X6: the course a successful PUT is answered with keeps the id of the path
    and is what a GET of that id returns afterwards. *)
Theorem updated_course_is_retrievable (svc : CourseService) (course_id : Z)
    (d : CourseUpdate) (c : Course) :
  fst (update_course svc course_id d) = Ok (OneCourse 200 c) ->
  id c = course_id
  /\ fst (get_course (snd (update_course svc course_id d)) course_id)
     = Ok (OneCourse 200 c).
Proof.
  unfold update_course, update, CourseService.data_service.update_course.
  destruct (get_course_by_id (data_service svc) course_id) as [c0|] eqn:Hget;
    cbn; [|discriminate].
  intros [= <-]. pose proof Hget as Hfound.
  apply find_some in Hfound as [_ Hid]. apply Z.eqb_eq in Hid.
  split; [exact Hid|].
  unfold get_course, get_by_id, get_course_by_id. cbn.
  assert (Hfind : forall l,
             List.find (fun c => (id c =? course_id)%Z) l = Some c0 ->
             List.find (fun c => (id c =? course_id)%Z)
               (mutate_first course_id (fun c => apply_update c d) l)
             = Some (apply_update c0 d)).
  { induction l as [|c1 rest IH]; cbn; [discriminate|].
    destruct (Z.eqb_spec (id c1) course_id) as [Heq | Hne]; cbn.
    - intros [= ->]. destruct (Z.eqb_spec (id c0) course_id);
        [reflexivity | congruence].
    - destruct (Z.eqb_spec (id c1) course_id); [congruence | exact IH]. }
  now rewrite (Hfind _ Hget).
Qed.

(** X7: a request about one id leaves what a GET of any other id returns as it
    was. *)
Theorem other_courses_untouched (svc : CourseService) (r : request)
    (course_id : Z) :
  target svc r <> Some course_id ->
  get_by_id (snd (handle svc r)) course_id = get_by_id svc course_id.
Proof.
  intros Hother. destruct r as [| cid | d | cid d | cid]; cbn in *.
  - reflexivity.
  - unfold get_course. now destruct (get_by_id svc cid).
  - unfold get_by_id, get_course_by_id. cbn.
    induction (courses (data_service svc)) as [|c rest IH]; cbn.
    + destruct (Z.eqb_spec (next_id (data_service svc)) course_id);
        [congruence | reflexivity].
    + now destruct (id c =? course_id)%Z.
  - unfold update_course, update, CourseService.data_service.update_course.
    destruct (get_course_by_id (data_service svc) cid) as [c0|]; cbn;
      [|reflexivity].
    unfold get_by_id, get_course_by_id. cbn.
    induction (courses (data_service svc)) as [|c rest IH]; cbn; [reflexivity|].
    destruct (Z.eqb_spec (id c) cid) as [Heq | Hne]; cbn.
    + destruct (Z.eqb_spec (id c) course_id); [congruence | reflexivity].
    + now destruct (id c =? course_id)%Z.
  - unfold delete_course, delete, CourseService.data_service.delete_course.
    destruct (get_course_by_id (data_service svc) cid) as [c0|] eqn:Hget; cbn;
      [|reflexivity].
    destruct (list_remove_found _ _ _ Hget) as (before & after & Hl & Hrem & Hb).
    unfold get_by_id, get_course_by_id. cbn. rewrite Hrem, Hl.
    apply find_some in Hget as [_ Hid]. apply Z.eqb_eq in Hid.
    clear Hl Hrem Hb. induction before as [|c rest IH]; cbn.
    + destruct (Z.eqb_spec (id c0) course_id); [congruence | reflexivity].
    + now destruct (id c =? course_id)%Z.
Qed.

(** X8: a PUT that provides no field changes nothing in the service. *)
Theorem empty_update_changes_nothing (svc : CourseService) (course_id : Z)
    (d : CourseUpdate) :
  upd_name d = Unset -> upd_code d = Unset -> upd_credits d = Unset ->
  upd_instructor d = Unset -> upd_description d = Unset ->
  snd (update_course svc course_id d) = svc
  /\ fst (update_course svc course_id d) = fst (get_course svc course_id).
Proof.
  intros H1 H2 H3 H4 H5.
  assert (Hid : forall c, apply_update c d = c).
  { intros [i n c cr ins de]. unfold apply_update. now rewrite H1, H2, H3, H4, H5. }
  assert (Hl : forall l, mutate_first course_id (fun c => apply_update c d) l = l).
  { induction l as [|c rest IH]; cbn; [reflexivity|].
    destruct (id c =? course_id)%Z; [now rewrite Hid | now rewrite IH]. }
  unfold update_course, update, CourseService.data_service.update_course, get_course, get_by_id.
  destruct svc as [[l n]]. cbn [data_service].
  destruct (get_course_by_id {| courses := l; next_id := n |} course_id) as [c|];
    cbn [fst snd courses next_id]; [|now split].
  now rewrite Hl, Hid.
Qed.

(** X9: a GET of an id is answered 404 exactly when no course of the list has
    that id. *)
Theorem get_course_404_iff_absent (svc : CourseService) (course_id : Z) :
  fst (get_course svc course_id) = Raise not_found
  <-> ~ In course_id (map id (get_all svc)).
Proof.
  unfold get_course, get_by_id, get_all,
    CourseService.data_service.get_all_courses.
  rewrite <- get_course_by_id_None.
  destruct (get_course_by_id (data_service svc) course_id); cbn;
    split; congruence.
Qed.

End CourseEndpointProperties.

(* ===================================================================== *)
(** ** Further properties of the gateway *)
(* ===================================================================== *)

Section MoreTokenProperties.

Import Auth Spec.

Variable SECRET_KEY : string.
Variable hs256 : string -> list (string * json) -> string.

Lemma assoc_get_set_other {V : Type} (k k' : string) (v : V)
    (d : list (string * V)) :
  k <> k' -> assoc_get k' (assoc_set k v d) = assoc_get k' d.
Proof.
  intros Hne. induction d as [|[k0 v0] rest IH]; simpl.
  - destruct (String.eqb_spec k' k); congruence.
  - destruct (String.eqb_spec k k0) as [->|]; simpl.
    + destruct (String.eqb_spec k' k0); congruence.
    + now rewrite IH.
Qed.

(** X10: the claims of an issued token are the data given, with [exp] set to
    the computed expiry: an [exp] in the data is overridden and every other
    claim is as given. *)
Theorem issued_token_claims (data : list (string * json))
    (expires_delta : option Z) (utcnow : Z) :
  exists claims,
    create_access_token SECRET_KEY hs256 data expires_delta utcnow
    = Compact ALGORITHM claims (hs256 SECRET_KEY claims)
    /\ assoc_get "exp" claims = Some (JInt (expire_at expires_delta utcnow))
    /\ forall k, k <> "exp" -> assoc_get k claims = assoc_get k data.
Proof.
  eexists. split; [reflexivity|]. split; [apply assoc_get_set_same|].
  intros k Hk. apply assoc_get_set_other. congruence.
Qed.

(** A [JWTError] of the library becomes the 401 exception. *)
Lemma get_current_user_jwt_error (st : auth_state) (t : token) (now : Z)
    (why : jwt_failure) :
  jwt_decode hs256 t SECRET_KEY [ALGORITHM] now = Raise (JWTError why) ->
  get_current_user SECRET_KEY hs256 st t now = Raise credentials_exception.
Proof.
  intros Hdec. unfold get_current_user. now rewrite Hdec.
Qed.

(** An integer time claim, or none, reaches the check. *)
Lemma int_claim_integer (name : string) (claims : list (string * json))
    (check : Z -> result unit) :
  (forall v, assoc_get name claims = Some v -> exists n, v = JInt n) ->
  int_claim name claims check = Ok tt
  \/ exists n, assoc_get name claims = Some (JInt n)
               /\ int_claim name claims check = check n.
Proof.
  intros Hint. unfold int_claim.
  destruct (assoc_get name claims) as [v|]; [|now left].
  destruct (Hint v eq_refl) as [n ->]. right. now exists n.
Qed.

(** X11: once its expiry has passed, a token issued for data whose [iat] and
    [nbf] claims, if it has any, are integers is rejected with the 401
    exception, whatever else it claims and whatever the registry holds.  (On
    an [iat] or [nbf] that is [null], a list or an object the library raises
    [TypeError] before it looks at [exp].) *)
Theorem issued_token_expires (st : auth_state) (data : list (string * json))
    (expires_delta : option Z) (issued now : Z) :
  (forall v, assoc_get "iat" data = Some v -> exists n, v = JInt n) ->
  (forall v, assoc_get "nbf" data = Some v -> exists n, v = JInt n) ->
  expire_at expires_delta issued < now ->
  get_current_user SECRET_KEY hs256 st
    (create_access_token SECRET_KEY hs256 data expires_delta issued) now
  = Raise credentials_exception.
Proof.
  intros Hiat Hnbf Hlate.
  set (claims := assoc_set "exp" (JInt (expire_at expires_delta issued)) data).
  assert (Hdec : exists why,
             jwt_decode hs256
               (create_access_token SECRET_KEY hs256 data expires_delta issued)
               SECRET_KEY [ALGORITHM] now = Raise (JWTError why)).
  { unfold create_access_token, jwt_encode, jwt_decode. fold claims.
    change (existsb (String.eqb ALGORITHM) [ALGORITHM]) with true.
    rewrite String.eqb_refl. cbn [negb]. unfold _validate_claims.
    assert (Hi : _validate_iat claims = Ok tt).
    { unfold _validate_iat.
      destruct (int_claim_integer "iat" claims (fun _ => Ok tt)) as [H | (n & _ & H)];
        try exact H.
      intros v. unfold claims. rewrite assoc_get_set_other by discriminate.
      apply Hiat. }
    rewrite Hi. cbn [rbind].
    assert (Hn : _validate_nbf claims now = Ok tt
                 \/ _validate_nbf claims now = Raise (JWTError BadClaims)).
    { unfold _validate_nbf.
      destruct (int_claim_integer "nbf" claims
                  (fun nbf => if (now <? nbf)%Z then Raise (JWTError BadClaims)
                              else Ok tt)) as [H | (n & _ & H)].
      - intros v. unfold claims. rewrite assoc_get_set_other by discriminate.
        apply Hnbf.
      - now left.
      - rewrite H. destruct (now <? n)%Z; [now right | now left]. }
    destruct Hn as [-> | ->]; cbn [rbind]; [|now exists BadClaims].
    unfold _validate_exp, int_claim, claims. rewrite assoc_get_set_same.
    cbn [py_int]. destruct (Z.ltb_spec (expire_at expires_delta issued) now); [|lia].
    now exists Expired. }
  destruct Hdec as [why Hdec].
  now apply (get_current_user_jwt_error st _ now why).
Qed.

(** X12: a token signed under a key whose signature differs from the gateway's
    is rejected with the 401 exception. *)
Theorem foreign_key_token_rejected (st : auth_state) (other_key : string)
    (data : list (string * json)) (expires_delta : option Z) (issued now : Z) :
  (forall claims, hs256 other_key claims <> hs256 SECRET_KEY claims) ->
  get_current_user SECRET_KEY hs256 st
    (create_access_token other_key hs256 data expires_delta issued) now
  = Raise credentials_exception.
Proof.
  intros Hkey. apply get_current_user_invalid.
  apply invalid_signature, Hkey.
Qed.

(** X13: the principal depends on the token's subject only: two accepted tokens
    with the same [sub] yield the same principal, whatever role or other
    claims they carry. *)
Theorem principal_depends_on_subject_only (st : auth_state) (t1 t2 : token)
    (now1 now2 : Z) (claims1 claims2 : list (string * json)) (name : string) :
  jwt_decode hs256 t1 SECRET_KEY [ALGORITHM] now1 = Ok claims1 ->
  jwt_decode hs256 t2 SECRET_KEY [ALGORITHM] now2 = Ok claims2 ->
  assoc_get "sub" claims1 = Some (JStr name) ->
  assoc_get "sub" claims2 = Some (JStr name) ->
  get_current_user SECRET_KEY hs256 st t1 now1
  = get_current_user SECRET_KEY hs256 st t2 now2.
Proof.
  intros H1 H2 Hs1 Hs2.
  rewrite (get_current_user_decoded SECRET_KEY hs256 st t1 now1 claims1 name H1 Hs1).
  now rewrite (get_current_user_decoded SECRET_KEY hs256 st t2 now2 claims2 name
                 H2 Hs2).
Qed.

End MoreTokenProperties.

Section MoreCredentialProperties.

Import Auth Spec.

Variable bcrypt : CryptContext.

(** X14: after the first call of [authenticate_user] the registry is fixed:
    further calls, with any credentials, leave it as it is. *)
Theorem registry_fixed_after_first_attempt (st : auth_state)
    (name1 password1 name2 password2 : string) :
  USERS_DB (snd (authenticate_user bcrypt
                   (snd (authenticate_user bcrypt st name1 password1))
                   name2 password2))
  = USERS_DB (snd (authenticate_user bcrypt st name1 password1)).
Proof.
  destruct (authenticate_user_registry bcrypt
              (snd (authenticate_user bcrypt st name1 password1)) name2 password2)
    as [-> _].
  destruct (authenticate_user_registry bcrypt st name1 password1) as [_ Hdone].
  now rewrite (init_users_db_done bcrypt _ Hdone).
Qed.

(** X15: the registry never holds anything but the two built-in users: after
    any call of [authenticate_user] on a fresh process its keys are [admin]
    and [user], each with the role of its own name. *)
Theorem registry_holds_two_users (name password k : string) (u : user) :
  USERS_DB (snd (authenticate_user bcrypt initial_state name password)) !! k
  = Some u ->
  (k = "admin" \/ k = "user") /\ username u = k /\ role u = k.
Proof.
  destruct (authenticate_user_registry bcrypt initial_state name password)
    as [-> _].
  destruct (init_users_db_fresh bcrypt initial_state eq_refl) as [_ ->].
  cbn [_pwd_context initial_state].
  assert (H : forall a b, hashed_users a b !! k = Some u ->
                          (k = "admin" \/ k = "user") /\ username u = k /\ role u = k).
  { intros a b. rewrite hashed_users_lookup.
    destruct (String.eqb_spec k "admin") as [->|_]; [intros [= <-]; auto|].
    destruct (String.eqb_spec k "user") as [->|_]; [intros [= <-]; auto|].
    discriminate. }
  destruct (ctx_hash bcrypt "admin123"); [destruct (ctx_hash bcrypt "user123")|];
    apply H.
Qed.

End MoreCredentialProperties.

Section MoreLoginProperties.

Import Gateway Spec.

Variable bcrypt : Auth.CryptContext.
Variable SECRET_KEY : string.
Variable hs256 : string -> list (string * json) -> string.

(** X16: a login with an unknown user name and a login with a wrong password
    for a known user (one the context answers [False] for) raise the same
    401 exception and issue no token. *)
Theorem login_rejections_alike (st : Auth.auth_state)
    (unknown known password1 password2 : string) (u : Auth.user) (utcnow : Z) :
  Auth._users_db_initialized st = true ->
  Auth._pwd_context st = Some bcrypt ->
  Auth.USERS_DB st !! unknown = None ->
  Auth.USERS_DB st !! known = Some u ->
  Auth.hashed_password u <> password2 ->
  Auth.ctx_verify bcrypt password2 (Auth.hashed_password u) = Some false ->
  fst (login bcrypt SECRET_KEY hs256 st unknown password1 utcnow)
  = Raise (HTTPException 401
             (JDict [("error", JStr "Authentication Failed");
                     ("message", JStr "Invalid username or password")]))
  /\ fst (login bcrypt SECRET_KEY hs256 st known password2 utcnow)
     = fst (login bcrypt SECRET_KEY hs256 st unknown password1 utcnow).
Proof.
  intros Hinit Hctx Hunknown Hknown Hne Hverify.
  assert (H1 : fst (login bcrypt SECRET_KEY hs256 st unknown password1 utcnow)
               = Raise (HTTPException 401
                          (JDict [("error", JStr "Authentication Failed");
                                  ("message", JStr "Invalid username or password")]))).
  { unfold login, Auth.authenticate_user. now rewrite Hinit, Hunknown. }
  split; [exact H1|]. rewrite H1.
  unfold login, Auth.authenticate_user. rewrite Hinit, Hknown.
  destruct (String.eqb_spec (Auth.hashed_password u) password2); [congruence|].
  unfold Auth.verify_password, Auth.get_pwd_context. now rewrite Hctx, Hverify.
Qed.

End MoreLoginProperties.

Section MoreForwarderProperties.

Import Gateway Spec.

Variable json_loads : string -> option json.
Variable transport : call -> result Response.

(** X17: [forward_request] hands no request to the HTTP client exactly when
    the service is not registered or the method is not one of the four, and
    never hands it more than one.  (Whether a request handed over is sent is
    the client's business: it raises without sending on an address it cannot
    use.) *)
Theorem forward_request_calls (service path method : string)
    (kwargs : option json) :
  (snd (forward_request json_loads transport service path method kwargs) = []
   <-> assoc_get service SERVICES = None \/ supported_method method = false)
  /\ (length (snd (forward_request json_loads transport service path method kwargs))
      <= 1)%nat.
Proof.
  unfold forward_request.
  destruct (assoc_get service SERVICES) as [base|] eqn:Hreg.
  - destruct (supported_method method) eqn:Hm.
    + rewrite try_body_supported by exact Hm. cbn.
      split; [|lia]. split; [discriminate | intros [H | H]; discriminate].
    + rewrite try_body_unsupported by exact Hm. cbn.
      split; [|lia]. split; auto.
  - cbn. split; [|lia]. split; auto.
Qed.

(** X18: whatever the backend does, a failure of [forward_request] is an
    [HTTPException]: the general exception handler is never the one that
    answers for it. *)
Theorem forward_request_raises_http_only (service path method : string)
    (kwargs : option json) (e : exn) :
  fst (forward_request json_loads transport service path method kwargs) = Raise e ->
  exists status detail, e = HTTPException status detail.
Proof.
  unfold forward_request.
  destruct (assoc_get service SERVICES) as [base|]; cbn [fst];
    [|intros [= <-]; eauto].
  destruct (try_body json_loads transport service path method _ kwargs)
    as [[r | e0] io]; cbn [fst try_except]; [discriminate|].
  destruct e0; cbn [except_clauses]; intros [= <-]; eauto.
Qed.

(** X19: a response is returned, not raised, only for a backend status below
    400, and it carries that status. *)
Theorem forward_request_ok_below_400 (service path method : string)
    (kwargs : option json) (r : JSONResponse) :
  fst (forward_request json_loads transport service path method kwargs) = Ok r ->
  exists base response,
    assoc_get service SERVICES = Some base
    /\ transport {| call_method := method; call_url := base +:+ path;
                    call_json := kwargs |} = Ok response
    /\ status_code response < 400
    /\ resp_status r = status_code response.
Proof.
  unfold forward_request.
  destruct (assoc_get service SERVICES) as [base|] eqn:Hreg; cbn [fst];
    [|discriminate].
  destruct (supported_method method) eqn:Hm.
  - rewrite try_body_supported by exact Hm. cbn [fst].
    destruct (transport _) as [response | e0] eqn:Hcall; cbn [rbind try_except].
    + unfold translate_response.
      destruct (Z.leb_spec 400 (status_code response)) as [Hge | Hlt].
      * destruct (json_loads (text response)) as [j|]; [destruct j|];
          cbn [rbind try_except except_clauses]; discriminate.
      * unfold new_JSONResponse.
        match goal with
        | |- context [if renderable ?c then _ else _] => destruct (renderable c)
        end; cbn [try_except except_clauses]; [|discriminate].
        intros [= <-]. exists base, response. repeat split; auto.
    + destruct e0; cbn [except_clauses]; discriminate.
  - rewrite try_body_unsupported by exact Hm. cbn [fst try_except except_clauses].
    discriminate.
Qed.

End MoreForwarderProperties.

Section EndpointProperties.

Import Gateway Endpoints Spec.

Variable SECRET_KEY : string.
Variable hs256 : string -> list (string * json) -> string.
Variable json_loads : string -> option json.
Variable transport : call -> result Response.

Lemma serve_unfold (e : proxied) (st : Auth.auth_state) (credentials : Auth.token)
    (now : Z) :
  serve SECRET_KEY hs256 json_loads transport e st credentials now
  = match Auth.get_current_user SECRET_KEY hs256 st credentials now with
    | Raise x => (Raise x, [])
    | Ok _ =>
        match raw_body_of e with
        | Some raw =>
            match json_loads raw with
            | None => (Raise (OtherException "JSONDecodeError"), [])
            | Some body =>
                serve SECRET_KEY hs256 json_loads transport e st credentials now
            end
        | None => serve SECRET_KEY hs256 json_loads transport e st credentials now
        end
    end.
Proof.
  destruct e; cbn [serve raw_body_of];
    unfold get_all_students, get_student, create_student, update_student,
      delete_student, get_all_courses, get_course, create_course, update_course,
      delete_course, depends, Auth.get_current_active_user, request_json;
    destruct (Auth.get_current_user SECRET_KEY hs256 st credentials now);
    try reflexivity;
    match goal with
    | |- context [json_loads ?raw] => destruct (json_loads raw); reflexivity
    end.
Qed.


(** X21: with an accepted token, an endpoint that reads a body that is not JSON
    makes no call and fails with an exception that is no [HTTPException]:
    the client is answered 500 by the general handler. *)
Theorem unparseable_body_is_500 (e : proxied) (st : Auth.auth_state)
    (credentials : Auth.token) (now : Z) (p : Auth.principal) (raw : string)
    (request_path : string) :
  Auth.get_current_user SECRET_KEY hs256 st credentials now = Ok p ->
  raw_body_of e = Some raw ->
  json_loads raw = None ->
  snd (serve SECRET_KEY hs256 json_loads transport e st credentials now) = []
  /\ respond request_path
       (fst (serve SECRET_KEY hs256 json_loads transport e st credentials now))
     = general_exception_handler request_path.
Proof.
  intros Hauth Hraw Hbody. rewrite serve_unfold, Hauth, Hraw, Hbody.
  split; reflexivity.
Qed.

(** X22: with an accepted token and, where one is read, a body that parses,
    every proxied endpoint makes exactly one call: with the method of the
    route, to an address under the registered base address of its service.
    The 404 and 405 branches of [forward_request] are never taken. *)
Theorem accepted_request_makes_one_call (e : proxied) (st : Auth.auth_state)
    (credentials : Auth.token) (now : Z) (p : Auth.principal) :
  Auth.get_current_user SECRET_KEY hs256 st credentials now = Ok p ->
  (forall raw, raw_body_of e = Some raw -> json_loads raw <> None) ->
  exists base path kwargs,
    assoc_get (service_of e) SERVICES = Some base
    /\ supported_method (method_of e) = true
    /\ snd (serve SECRET_KEY hs256 json_loads transport e st credentials now)
       = [{| call_method := method_of e; call_url := base +:+ path;
             call_json := kwargs |}].
Proof.
  intros Hauth Hbody.
  destruct e; cbn [serve raw_body_of service_of method_of] in *;
    unfold get_all_students, get_student, create_student, update_student,
      delete_student, get_all_courses, get_course, create_course, update_course,
      delete_course, depends, Auth.get_current_active_user, request_json;
    rewrite Hauth;
    try match goal with
        | |- context [json_loads ?raw] =>
            destruct (json_loads raw) as [body|] eqn:Hparse;
            [|exfalso; apply (Hbody raw eq_refl Hparse)]
        end;
    eexists _, _, _; (split; [reflexivity|]); (split; [reflexivity|]);
    erewrite forward_request_supported by reflexivity; reflexivity.
Qed.

End EndpointProperties.

Section MoreMiddlewareProperties.

Import Middleware.

Variable Resp : Type.
Variable status_code_of : Resp -> Z.

(** X23: the middleware adds exactly two records around what the rest of
    the pipeline logged.  When the pipeline, started on the log with the
    request record added, appends the records [inner] and nothing else, the
    log after [dispatch] is the log before, the request record, [inner], and
    last the outcome: the status code of the response or the exception, with
    the time between the two clock readings. *)
Theorem dispatch_brackets_the_log (request : Request)
    (call_next : Request -> list log_record -> result Resp * list log_record)
    (start_time end_time : Z) (log inner : list log_record) :
  snd (call_next request
         (log ++ [LogRequest (req_method request) (req_path request)
                    (match req_client request with
                     | Some host => host
                     | None => "unknown"
                     end)
                    (req_query_params request)])%list)
  = ((log ++ [LogRequest (req_method request) (req_path request)
                (match req_client request with
                 | Some host => host
                 | None => "unknown"
                 end)
                (req_query_params request)]) ++ inner)%list ->
  snd (dispatch Resp status_code_of request call_next start_time end_time log)
  = (log
     ++ [LogRequest (req_method request) (req_path request)
           (match req_client request with Some host => host | None => "unknown" end)
           (req_query_params request)]
     ++ inner
     ++ [match fst (dispatch Resp status_code_of request call_next
                      start_time end_time log) with
         | Ok response =>
             LogResponse (req_method request) (req_path request)
               (status_code_of response) (end_time - start_time)
         | Raise e =>
             LogException (req_method request) (req_path request) e
               (end_time - start_time)
         end])%list.
Proof.
  intros Hinner. unfold dispatch.
  destruct (call_next request _) as [[response | e] log2]; cbn [fst snd] in *;
    rewrite Hinner, <- !app_assoc; reflexivity.
Qed.

End MoreMiddlewareProperties.

Section ComposedProperties.

Import Gateway Endpoints Spec.

Variable bcrypt : Auth.CryptContext.
Variable SECRET_KEY : string.
Variable hs256 : string -> list (string * json) -> string.
Variable json_loads : string -> option json.
Variable transport : call -> result Response.

(** X24: on a fresh process, a login with one of the two registered pairs
    succeeds with the role of that user, and the token it hands out is
    accepted, for that user and role, until 30 minutes later. *)
Theorem registered_login_roundtrip (name password : string) (utcnow now : Z) :
  (forall p h,
      Auth.ctx_hash bcrypt p = Some h -> Auth.ctx_verify bcrypt p h = Some true) ->
  (name = "admin" /\ password = "admin123")
  \/ (name = "user" /\ password = "user123") ->
  now <= utcnow + 1800 ->
  exists t st',
    login bcrypt SECRET_KEY hs256 Auth.initial_state name password utcnow
    = (Ok (t, {| Auth.p_username := name; Auth.p_role := name |}), st')
    /\ Auth.get_current_user SECRET_KEY hs256 st' t now
       = Ok {| Auth.p_username := name; Auth.p_role := name |}.
Proof.
  intros Hverify Hpair Hnow.
  pose proof (authenticate_registered_pair bcrypt name password Hverify Hpair)
    as Hauth.
  assert (Hlogin : exists t st',
             login bcrypt SECRET_KEY hs256 Auth.initial_state name password utcnow
             = (Ok (t, {| Auth.p_username := name; Auth.p_role := name |}), st')).
  { unfold login.
    destruct (Auth.authenticate_user bcrypt Auth.initial_state name password)
      as [r st1]. cbn [fst] in Hauth. subst r. eauto. }
  destruct Hlogin as (t & st' & Hlogin). exists t, st'. split; [exact Hlogin|].
  apply (login_then_verify bcrypt SECRET_KEY hs256 Auth.initial_state st'
           name password utcnow now t _); [|exact Hlogin|exact Hnow].
  intros k u Hk. unfold Auth.initial_state in Hk. cbn [Auth.USERS_DB] in Hk.
  rewrite lookup_empty in Hk. discriminate.
Qed.

(** X25: on a fresh process, a login under any other user name is answered with
    the 401 exception, whether or not password hashing works. *)
Theorem unknown_user_login_rejected (name password : string) (utcnow : Z) :
  name <> "admin" -> name <> "user" ->
  fst (login bcrypt SECRET_KEY hs256 Auth.initial_state name password utcnow)
  = Raise (HTTPException 401
             (JDict [("error", JStr "Authentication Failed");
                     ("message", JStr "Invalid username or password")])).
Proof.
  intros Ha Hu.
  pose proof (authenticate_unknown_user bcrypt name password Ha Hu) as Hauth.
  unfold login.
  destruct (Auth.authenticate_user bcrypt Auth.initial_state name password)
    as [r st1]. cbn [fst] in Hauth. now subst r.
Qed.

(** X26: [/gateway/auth/me] with a token issued for the administrator: before
    the first login attempt of the process it fails with the 401 exception;
    after any login attempt it returns the administrator's name and role,
    until the token expires. *)
Theorem current_user_info_after_first_login (name password : string)
    (expires_delta : option Z) (issued now : Z) :
  now <= Auth.expire_at expires_delta issued ->
  get_current_user_info SECRET_KEY hs256 Auth.initial_state
    (Auth.create_access_token SECRET_KEY hs256
       [("sub", JStr "admin"); ("role", JStr "admin")] expires_delta issued) now
  = (Raise Auth.credentials_exception, [])
  /\ get_current_user_info SECRET_KEY hs256
       (snd (Auth.authenticate_user bcrypt Auth.initial_state name password))
       (Auth.create_access_token SECRET_KEY hs256
          [("sub", JStr "admin"); ("role", JStr "admin")] expires_delta issued) now
     = (Ok (JDict [("username", JStr "admin"); ("role", JStr "admin")]), []).
Proof.
  intros Hnow.
  destruct (token_accepted_after_first_login bcrypt SECRET_KEY hs256 name password
              expires_delta issued now Hnow) as [Hbefore Hafter].
  unfold get_current_user_info, depends, Auth.get_current_active_user.
  rewrite Hbefore, Hafter. split; reflexivity.
Qed.

(** What a proxied endpoint does once the token is accepted and the body,
    if it reads one, parses: it forwards to its service with its method. *)
Lemma serve_forwards (e : proxied) (st : Auth.auth_state)
    (credentials : Auth.token) (now : Z) (p : Auth.principal) :
  Auth.get_current_user SECRET_KEY hs256 st credentials now = Ok p ->
  (forall raw, raw_body_of e = Some raw -> json_loads raw <> None) ->
  exists path kwargs,
    serve SECRET_KEY hs256 json_loads transport e st credentials now
    = forward_request json_loads transport (service_of e) path (method_of e) kwargs.
Proof.
  intros Hauth Hbody.
  destruct e; cbn [serve raw_body_of service_of method_of] in *;
    unfold get_all_students, get_student, create_student, update_student,
      delete_student, get_all_courses, get_course, create_course, update_course,
      delete_course, depends, Auth.get_current_active_user, request_json;
    rewrite Hauth;
    try match goal with
        | |- context [json_loads ?raw] =>
            destruct (json_loads raw) as [body|] eqn:Hparse;
            [|exfalso; apply (Hbody raw eq_refl Hparse)]
        end;
    eexists _, _; reflexivity.
Qed.


End ComposedProperties.

(* ===================================================================== *)
(** ** The bodies of the failure responses *)
(* ===================================================================== *)

Section FailureResponseProperties.

Import Gateway Endpoints Spec.

Variable bcrypt : Auth.CryptContext.
Variable SECRET_KEY : string.
Variable hs256 : string -> list (string * json) -> string.
Variable json_loads : string -> option json.
Variable transport : call -> result Response.
Variable validate_LoginRequest
  : option json -> RequestModels.LoginRequest + list json.

(** The response of the handler of [Exception]. *)
Lemma general_handler_shape (request_path : string) :
  four_fields request_path (general_exception_handler request_path)
    (JStr "Internal Server Error") (JStr "An unexpected error occurred").
Proof. reflexivity. Qed.

(** The response to an [HTTPException] whose detail is a dictionary with a
    string under [error]: the message is the value under [message], or, when
    that cannot be rendered, the text of the handler of [Exception]. *)
Lemma http_failure_fields (request_path : string) (status : Z)
    (kv : list (string * json)) (err : string) (msg : json) :
  assoc_get "error" kv = Some (JStr err) ->
  assoc_get "message" kv = Some msg ->
  exists err' msg',
    four_fields request_path
      (failure_response request_path (HTTPException status (JDict kv)))
      (JStr err') msg'
    /\ (msg' = msg \/ is_str msg' = true).
Proof.
  intros Herr Hmsg. destruct (renderable msg) eqn:Hr.
  - rewrite (failure_response_http request_path status kv err msg Herr Hmsg Hr).
    exists err, msg. split; [reflexivity | now left].
  - unfold failure_response, http_exception_handler, new_JSONResponse,
      assoc_get_default.
    rewrite Herr, Hmsg.
    change (renderable (JDict [("error", JStr err); ("message", msg);
                               ("status_code", JInt status);
                               ("path", JStr request_path)]))
      with (true && (renderable msg && (true && (true && true)))).
    rewrite Hr. cbn [andb].
    eexists _, _. split; [apply general_handler_shape | now right].
Qed.

(** The response to an exception of [forward_request]: the four fields with
    a string error, and a message that is a string unless it is the
    non-string [detail] of a backend's error body. *)
Lemma forward_request_failure_fields (request_path service path method : string)
    (kwargs : option json) (x : exn) :
  (forall c s d, transport c <> Raise (HTTPException s d)) ->
  fst (forward_request json_loads transport service path method kwargs) = Raise x ->
  exists err msg,
    four_fields request_path (failure_response request_path x) (JStr err) msg
    /\ (is_str msg = true \/ backend_detail json_loads transport msg).
Proof.
  intros Hhttpx. unfold forward_request.
  destruct (assoc_get service SERVICES) as [base|] eqn:Hreg;
    [|cbn [fst]; intros [= <-]; eexists _, _; split; [reflexivity | now left]].
  destruct (supported_method method) eqn:Hm.
  - rewrite try_body_supported by exact Hm. cbn [fst].
    destruct (transport _) as [response | e0] eqn:Hcall; cbn [rbind try_except].
    + unfold translate_response.
      destruct (Z.leb_spec 400 (status_code response)) as [Hge | Hlt].
      * destruct (json_loads (text response)) as [j|] eqn:Hbody.
        -- destruct j as [| | | | | kv |]; cbn [rbind try_except except_clauses];
             try (intros [= <-]; eexists _, _; split; [reflexivity | now left]).
           intros [= <-].
           destruct (http_failure_fields request_path (status_code response)
                       [("error",
                         JStr ("Service Error (" +:+ str_of_Z (status_code response)
                               +:+ ")"));
                        ("message",
                         assoc_get_default "detail"
                           (JStr "An error occurred in the microservice") kv);
                        ("service", JStr service); ("path", JStr path)]
                       _ _ eq_refl eq_refl)
             as (err' & msg' & Hfields & Hmsg).
           exists err', msg'. split; [exact Hfields|].
           destruct Hmsg as [-> | Hstr]; [|now left].
           unfold assoc_get_default.
           destruct (assoc_get "detail" kv) as [v|] eqn:Hdetail; [|now left].
           destruct (is_str v) eqn:Hv; [now left|].
           right. unfold backend_detail. eexists _, response, kv.
           repeat split; eassumption.
        -- cbn [rbind try_except except_clauses]. intros [= <-].
           destruct (http_failure_fields request_path (status_code response)
                       [("error",
                         JStr ("Service Error (" +:+ str_of_Z (status_code response)
                               +:+ ")"));
                        ("message",
                         JStr (if String.eqb (text response) "" then "Unknown error"
                               else text response));
                        ("service", JStr service); ("path", JStr path)]
                       _ _ eq_refl eq_refl)
             as (err' & msg' & Hfields & Hmsg).
           exists err', msg'. split; [exact Hfields|].
           left. now destruct Hmsg as [-> | Hstr].
      * unfold new_JSONResponse.
        match goal with
        | |- context [if renderable ?c then _ else _] => destruct (renderable c)
        end; cbn [try_except except_clauses]; [discriminate|].
        intros [= <-]. eexists _, _. split; [reflexivity | now left].
    + destruct e0 as [s d | | | | | | | | | |]; cbn [except_clauses];
        try (intros [= <-]; eexists _, _; split; [reflexivity | now left]).
      now destruct (Hhttpx _ _ _ Hcall).
  - rewrite try_body_unsupported by exact Hm. cbn [fst try_except except_clauses].
    intros [= <-]. eexists _, _. split; [reflexivity | now left].
Qed.

(** The response to an exception of the token check has the shape. *)
Lemma token_failure_shape (request_path : string) (st : Auth.auth_state)
    (credentials : Auth.token) (now : Z) (x : exn) :
  Auth.get_current_user SECRET_KEY hs256 st credentials now = Raise x ->
  error_body_shape (content (failure_response request_path x)) = true.
Proof.
  intros Hraise.
  destruct (get_current_user_raises SECRET_KEY hs256 st credentials now x Hraise)
    as [-> | (Hdec & _ & _)]; [reflexivity|].
  destruct x; try destruct Hdec; reflexivity.
Qed.


End FailureResponseProperties.

(* ===================================================================== *)
(** ** The further properties at concrete inputs *)
(* ===================================================================== *)

Section MoreConcreteInputs.

Import Auth Gateway Endpoints Spec Samples MoreSamples.
Import CourseService.models CourseService.service CourseService.main.

Lemma created_course_is_retrievable_witness :
  fst (CourseService.main.get_course
         (snd (CourseService.main.create_course course_service new_course)) 4)
  = Ok (OneCourse 200
          {| id := 4; name := Some "Operating Systems"; code := Some "CS401";
             credits := Some 4; instructor := Some "Dr. Brown";
             description := None |}).
Proof.
  destruct (created_course_is_retrievable course_service new_course well_formed_init)
    as (c & Hc & Hid & Hget).
  injection Hc as <-. exact Hget.
Defined.

Lemma course_ids_never_reused_witness :
  3 < id (fst (create (run course_service [Delete 3]) new_course)).
Proof.
  apply (course_ids_never_reused course_service [Delete 3] new_course
           {| id := 3; name := Some "Database Systems"; code := Some "CS301";
              credits := Some 3; instructor := Some "Dr. Williams";
              description := Some "Relational database design and SQL" |}
           well_formed_init).
  cbn. auto.
Defined.

Lemma deleted_course_is_gone_witness :
  fst (CourseService.main.get_course
         (snd (CourseService.main.delete_course course_service 2)) 2)
  = Raise not_found.
Proof.
  exact (proj1 (deleted_course_is_gone course_service 2 well_formed_init)).
Defined.

Lemma delete_removes_exactly_that_id_witness :
  map id (get_all (snd (CourseService.main.delete_course course_service 2)))
  = [1; 3].
Proof.
  rewrite (delete_removes_exactly_that_id course_service 2 well_formed_init).
  reflexivity.
Defined.

Lemma updated_course_is_retrievable_witness :
  fst (CourseService.main.update_course course_service 2 rename)
  = Ok (OneCourse 200
          {| id := 2; name := Some "Algorithms"; code := Some "CS201";
             credits := Some 4; instructor := Some "Dr. Johnson";
             description := Some "Advanced data structures and algorithm design" |})
  /\ fst (CourseService.main.get_course
            (snd (CourseService.main.update_course course_service 2 rename)) 2)
     = fst (CourseService.main.update_course course_service 2 rename).
Proof.
  assert (H : fst (CourseService.main.update_course course_service 2 rename)
              = Ok (OneCourse 200
                      {| id := 2; name := Some "Algorithms"; code := Some "CS201";
                         credits := Some 4; instructor := Some "Dr. Johnson";
                         description :=
                           Some "Advanced data structures and algorithm design" |}))
    by reflexivity.
  split; [exact H|]. rewrite H.
  exact (proj2 (updated_course_is_retrievable course_service 2 rename _ H)).
Defined.

Lemma other_courses_untouched_witness :
  target course_service (Delete 2) <> Some 3
  /\ get_by_id (snd (handle course_service (Delete 2))) 3
     = get_by_id course_service 3.
Proof.
  assert (H : target course_service (Delete 2) <> Some 3) by discriminate.
  split; [exact H|].
  exact (other_courses_untouched course_service (Delete 2) 3 H).
Defined.

Lemma empty_update_changes_nothing_witness :
  snd (CourseService.main.update_course course_service 2 no_change)
  = course_service.
Proof.
  exact (proj1 (empty_update_changes_nothing course_service 2 no_change
                  eq_refl eq_refl eq_refl eq_refl eq_refl)).
Defined.

Lemma get_course_404_iff_absent_witness :
  ~ In 9 (map id (get_all course_service))
  /\ fst (CourseService.main.get_course course_service 9) = Raise not_found.
Proof.
  assert (H : ~ In 9 (map id (get_all course_service)))
    by (cbn; intuition discriminate).
  split; [exact H|].
  exact (proj2 (get_course_404_iff_absent course_service 9) H).
Defined.

Lemma issued_token_claims_witness :
  exists claims,
    admin_token = Compact ALGORITHM claims (sample_hs256 secret claims)
    /\ assoc_get "exp" claims = Some (JInt 2800)
    /\ assoc_get "sub" claims = Some (JStr "admin").
Proof.
  destruct (issued_token_claims secret sample_hs256
              [("sub", JStr "admin"); ("role", JStr "admin")] (Some 1800) 1000)
    as (claims & Htok & Hexp & Hrest).
  exists claims. split; [exact Htok|]. split; [exact Hexp|].
  rewrite (Hrest "sub") by discriminate. reflexivity.
Defined.

Lemma issued_token_expires_witness :
  expire_at (Some 1800) 1000 < 5000
  /\ get_current_user secret sample_hs256 ready_state
       (create_access_token secret sample_hs256
          [("sub", JStr "admin"); ("iat", JInt 1000)] (Some 1800) 1000) 5000
     = Raise credentials_exception.
Proof.
  assert (H : expire_at (Some 1800) 1000 < 5000) by (vm_compute; reflexivity).
  split; [exact H|].
  apply (issued_token_expires secret sample_hs256 ready_state
           [("sub", JStr "admin"); ("iat", JInt 1000)] (Some 1800) 1000 5000);
    [intros v [= <-]; now exists 1000 | intros v [=] | exact H].
Defined.

Lemma foreign_key_token_rejected_witness :
  get_current_user secret sample_hs256 ready_state
    (create_access_token "k2" sample_hs256
       [("sub", JStr "admin"); ("role", JStr "admin")] (Some 1800) 1000) 1000
  = Raise credentials_exception.
Proof.
  apply (foreign_key_token_rejected secret sample_hs256 ready_state "k2").
  intros claims. unfold sample_hs256, secret. cbn. discriminate.
Defined.

Lemma principal_depends_on_subject_only_witness :
  get_current_user secret sample_hs256 ready_state relabelled_token 1500
  = get_current_user secret sample_hs256 ready_state admin_token 1000.
Proof.
  apply (principal_depends_on_subject_only secret sample_hs256 ready_state
           relabelled_token admin_token 1500 1000
           [("sub", JStr "admin"); ("role", JStr "superuser"); ("exp", JInt 1800)]
           [("sub", JStr "admin"); ("role", JStr "admin"); ("exp", JInt 2800)]
           "admin"); reflexivity.
Defined.

Lemma registry_holds_two_users_witness :
  USERS_DB (snd (authenticate_user working_ctx initial_state "mallory" "guess"))
    !! "user"
  = Some {| username := "user"; hashed_password := "$2b$user123"; role := "user" |}
  /\ role {| username := "user"; hashed_password := "$2b$user123"; role := "user" |}
     = "user".
Proof.
  assert (H : USERS_DB (snd (authenticate_user working_ctx initial_state
                               "mallory" "guess")) !! "user"
              = Some {| username := "user"; hashed_password := "$2b$user123";
                        role := "user" |}) by (vm_compute; reflexivity).
  split; [exact H|].
  exact (proj2 (proj2 (registry_holds_two_users working_ctx "mallory" "guess"
                         "user" _ H))).
Defined.

Lemma login_rejections_alike_witness :
  fst (login working_ctx secret sample_hs256 ready_state "admin" "wrong" 1000)
  = fst (login working_ctx secret sample_hs256 ready_state "mallory" "guess" 1000).
Proof.
  refine (proj2 (login_rejections_alike working_ctx secret sample_hs256 ready_state
                   "mallory" "admin" "guess" "wrong"
                   {| username := "admin"; hashed_password := "$2b$admin123";
                      role := "admin" |} 1000 _ _ _ _ _ _));
    try reflexivity; try discriminate; vm_compute; reflexivity.
Defined.

Lemma forward_request_calls_witness :
  assoc_get "inventory" SERVICES = None
  /\ snd (forward_request sample_json_loads ok_backend "inventory" "/api/items"
            "GET" None) = [].
Proof.
  split; [reflexivity|].
  apply (proj1 (forward_request_calls sample_json_loads ok_backend "inventory"
                  "/api/items" "GET" None)).
  left. reflexivity.
Defined.

Lemma forward_request_raises_http_only_witness :
  exists status detail,
    HTTPException 504
      (JDict [("error", JStr "Gateway Timeout");
              ("message", JStr "The course service did not respond in time");
              ("service", JStr "course");
              ("timeout", JStr "30 seconds")])
    = HTTPException status detail.
Proof.
  apply (forward_request_raises_http_only sample_json_loads slow_backend
           "course" "/api/courses" "GET" None).
  reflexivity.
Defined.

Lemma forward_request_ok_below_400_witness :
  exists base response,
    assoc_get "course" SERVICES = Some base
    /\ ok_backend {| call_method := "GET"; call_url := base +:+ "/api/courses";
                     call_json := None |} = Ok response
    /\ status_code response < 400
    /\ 200 = status_code response.
Proof.
  apply (forward_request_ok_below_400 sample_json_loads ok_backend
           "course" "/api/courses" "GET" None
           {| resp_status := 200; content := JDict [] |}).
  reflexivity.
Defined.


Lemma unparseable_body_is_500_witness :
  sample_json_loads "name=Algebra" = None
  /\ resp_status
       (respond "/gateway/courses"
          (fst (serve secret sample_hs256 sample_json_loads ok_backend
                  (CreateCourse "name=Algebra") ready_state admin_token 1000)))
     = 500.
Proof.
  split; [reflexivity|].
  destruct (unparseable_body_is_500 secret sample_hs256 sample_json_loads ok_backend
              (CreateCourse "name=Algebra") ready_state admin_token 1000
              {| p_username := "admin"; p_role := "admin" |} "name=Algebra"
              "/gateway/courses" eq_refl eq_refl eq_refl)
    as [_ Hresp].
  now rewrite Hresp.
Defined.

Lemma accepted_request_makes_one_call_witness :
  exists base path kwargs,
    assoc_get "course" SERVICES = Some base
    /\ supported_method "PUT" = true
    /\ snd (serve secret sample_hs256 sample_json_loads ok_backend
              (UpdateCourse 2 "{}") ready_state admin_token 1000)
       = [{| call_method := "PUT"; call_url := base +:+ path; call_json := kwargs |}].
Proof.
  apply (accepted_request_makes_one_call secret sample_hs256 sample_json_loads
           ok_backend (UpdateCourse 2 "{}") ready_state admin_token 1000
           {| p_username := "admin"; p_role := "admin" |} eq_refl).
  intros raw [= <-]. discriminate.
Defined.

Lemma dispatch_brackets_the_log_witness :
  snd (chatty_pipeline courses_request
         [Middleware.LogRequest "GET" "/gateway/courses" "unknown" []])
  = ([Middleware.LogRequest "GET" "/gateway/courses" "unknown" []]
     ++ [Middleware.LogRequest "GET" "/inner" "pipeline" []])%list
  /\ snd (Middleware.dispatch JSONResponse resp_status courses_request
            chatty_pipeline 10 25 [])
     = [Middleware.LogRequest "GET" "/gateway/courses" "unknown" [];
        Middleware.LogRequest "GET" "/inner" "pipeline" [];
        Middleware.LogResponse "GET" "/gateway/courses" 200 15].
Proof.
  split; [reflexivity|].
  exact (dispatch_brackets_the_log JSONResponse resp_status courses_request
           chatty_pipeline 10 25 []
           [Middleware.LogRequest "GET" "/inner" "pipeline" []] eq_refl).
Defined.

Lemma registered_login_roundtrip_witness :
  exists t st',
    login working_ctx secret sample_hs256 initial_state "user" "user123" 1000
    = (Ok (t, {| p_username := "user"; p_role := "user" |}), st')
    /\ get_current_user secret sample_hs256 st' t 2800
       = Ok {| p_username := "user"; p_role := "user" |}.
Proof.
  apply (registered_login_roundtrip working_ctx secret sample_hs256
           "user" "user123" 1000 2800).
  - intros p h [= <-]. unfold working_ctx. cbn [ctx_verify].
    assert (Hp : String.prefix "$2b$" ("$2b$" +:+ p) = true)
      by (destruct p; reflexivity).
    now rewrite Hp, String.eqb_refl.
  - right. split; reflexivity.
  - lia.
Defined.

Lemma unknown_user_login_rejected_witness :
  resp_status
    (failure_response "/gateway/auth/login"
       (HTTPException 401
          (JDict [("error", JStr "Authentication Failed");
                  ("message", JStr "Invalid username or password")]))) = 401
  /\ fst (login broken_ctx secret sample_hs256 initial_state "mallory" "admin123" 1000)
     = Raise (HTTPException 401
                (JDict [("error", JStr "Authentication Failed");
                        ("message", JStr "Invalid username or password")])).
Proof.
  split; [reflexivity|].
  apply (unknown_user_login_rejected broken_ctx secret sample_hs256
           "mallory" "admin123" 1000); discriminate.
Defined.

Lemma current_user_info_after_first_login_witness :
  get_current_user_info secret sample_hs256 initial_state admin_token 1000
  = (Raise credentials_exception, [])
  /\ get_current_user_info secret sample_hs256
       (snd (authenticate_user broken_ctx initial_state "mallory" "guess"))
       admin_token 1000
     = (Ok (JDict [("username", JStr "admin"); ("role", JStr "admin")]), []).
Proof.
  apply (current_user_info_after_first_login broken_ctx secret sample_hs256
           "mallory" "guess" (Some 1800) 1000 1000).
  vm_compute. discriminate.
Defined.




(** A backend that answers 200 with [NaN]: the response cannot be built,
    and the client is answered 500. *)
Lemma nan_body_answered_500 :
  respond "/gateway/courses"
    (fst (serve secret sample_hs256 sample_json_loads_nan nan_backend
            GetAllCourses ready_state admin_token 1000))
  = {| resp_status := 500;
       content :=
         JDict [("error", JStr "Internal Server Error");
                ("message",
                 JStr "An unexpected error occurred while processing your request");
                ("status_code", JInt 500);
                ("path", JStr "/gateway/courses")] |}.
Proof. vm_compute. reflexivity. Qed.

End MoreConcreteInputs.
